(** * gocryptotrader: the Fixer forex provider, the database migration tool
      and the migration engine its specification describes

    Three parts, one module each:

    - [Fixer]     : [currency/forexprovider/fixer.io/fixer.go];
    - [Dbmigrate] : the command-line entry point of the migration tool
                    ([package main]: [openDbConnection] and [main]);
    - [Engine]    : the migration engine (registry, ledger, planner,
                    runner).  The tool hands every command to the [goose]
                    library, whose source is not among the sources; the
                    engine is therefore written down from the
                    specification.

    Conventions.  A Go [error] is the text its [Error()] method returns, and
    a possibly-nil error is an [option].  A Go [int] or [time.Duration] is a
    [Z]; only comparisons are made on them, so no wrap-around is involved.
    A [float64] is carried around and never computed on: it is represented
    by its 64-bit pattern.  A Go map that may be [nil] is an [option] of a
    [gmap]. *)

From stdpp Require Import base option list gmap strings fin_maps.
From Stdlib Require Import ZArith Lia.

Local Open Scope string_scope.
Local Open Scope list_scope.
Local Open Scope Z_scope.

Definition error := string.
Definition float64 := Z.
Definition Duration := Z.

Module Fixer.

(** ** Constants of fixer.go *)

Definition fixerAPIFree : Z := 0.
Definition fixerAPIBasic : Z := 1.
Definition fixerAPIProfessional : Z := 2.
Definition fixerAPIProfessionalPlus : Z := 3.
Definition fixerAPIEnterprise : Z := 4.

Definition fixerAPI := "http://data.fixer.io/api/".
Definition fixerAPISSL := "https://data.fixer.io/api/".
Definition fixerAPILatest := "latest".
Definition fixerAPIConvert := "convert".
Definition fixerAPITimeSeries := "timeseries".
Definition fixerAPIFluctuation := "fluctuation".
Definition fixerSupportedCurrencies := "symbols".

Definition authRate : Z := 0.
Definition unAuthRate : Z := 0.

Definition Second : Duration := 1000000000.
Definition MethodGet := "GET".

(** ** Types

    [base.Settings] and [base.Base] are declared in the [base] package and
    the response types in [fixer_types.go]; neither file is among the
    sources.  The records below carry the fields that fixer.go reads and
    writes. *)

Record Settings := mkSettings {
  sName : string;
  sEnabled : bool;
  sVerbose : bool;
  sRESTPollingDelay : Duration;
  sAPIKey : string;
  sAPIKeyLvl : Z;
  sPrimaryProvider : bool
}.

(** What [request.New] is given; the requester itself lives in the
    [request] package. *)
Record RateLimit := NewRateLimit { rlDuration : Duration; rlRate : Z }.
Record HTTPClient := NewHTTPClientWithTimeout { hcTimeout : Duration }.
Record Requester := requestNew {
  rqName : string;
  rqAuthLimit : RateLimit;
  rqUnauthLimit : RateLimit;
  rqClient : HTTPClient
}.

(** [Fixer] embeds [base.Base]; [Requester] is a pointer, [None] is nil. *)
Record Fixer := mkFixer {
  Name : string;
  Enabled : bool;
  Verbose : bool;
  RESTPollingDelay : Duration;
  APIKey : string;
  APIKeyLvl : Z;
  PrimaryProvider : bool;
  FRequester : option Requester
}.

Record RespError := mkRespError { Code : Z; Type_ : string; Info : string }.

Record Rates := mkRates {
  rSuccess : bool;
  rError : RespError;
  rRates : option (gmap string float64)
}.

Record Conversion := mkConversion {
  cSuccess : bool;
  cError : RespError;
  cResult : float64
}.

(** A decoded [interface{}] value: the JSON text it was decoded from. *)
Inductive any := AnyJSON (raw : string).

Record TimeSeries := mkTimeSeries {
  tSuccess : bool;
  tError : RespError;
  tRates : option (gmap string any)
}.

Record Flux := mkFlux {
  StartRate : float64;
  EndRate : float64;
  Change : float64;
  ChangePCT : float64
}.

Record Fluctuation := mkFluctuation {
  fSuccess : bool;
  fError : RespError;
  fRates : option (gmap string Flux)
}.

Definition zeroError : RespError := mkRespError 0 "" "".
Definition zeroRates : Rates := mkRates false zeroError None.
Definition zeroConversion : Conversion := mkConversion false zeroError 0.
Definition zeroTimeSeries : TimeSeries := mkTimeSeries false zeroError None.
Definition zeroFluctuation : Fluctuation := mkFluctuation false zeroError None.

(** The [result interface{}] argument of [SendOpenHTTPRequest] points to
    a value of one of the response types. *)
Inductive ResultKind := KRates | KConversion | KTimeSeries | KFluctuation.

Definition ResultT (k : ResultKind) : Type :=
  match k with
  | KRates => Rates
  | KConversion => Conversion
  | KTimeSeries => TimeSeries
  | KFluctuation => Fluctuation
  end.

(** [url.Values]: a key has a list of values. *)
Abbreviation Values := (gmap string (list string)).

Definition Values_Add (k v : string) (m : Values) : Values :=
  <[k := default [] (m !! k) ++ [v]]> m.

Definition Values_Set (k v : string) (m : Values) : Values :=
  <[k := [v]]> m.

(** The arguments of [Requester.SendPayload] that vary; headers and body
    are nil, and the nonce and debug flags false, at its one call site. *)
Record Request := mkRequest {
  reqVia : option Requester;
  reqMethod : string;
  reqPath : string;
  reqAuth : bool;
  reqVerbose : bool
}.

(** What fixer.go calls outside itself: the standard library's
    [url.Values.Encode] and [strconv.FormatFloat], the [base] package's
    timeout, and the requester, which answers a request by filling the
    pointed-to result and returning an error or nil. *)
Record Extern := mkExtern {
  Encode : Values -> string;
  FormatFloat : float64 -> string;
  DefaultTimeOut : Duration;
  SendPayload : forall k : ResultKind, Request -> ResultT k -> ResultT k * option error
}.

(** [common.JoinStrings] is [strings.Join]. *)
Definition JoinStrings (l : list string) (sep : string) : string :=
  String.concat sep l.

(** ** Effects: the requests sent and the lines logged *)

Inductive Event :=
| EvLogError (line : string)
| EvHTTP (r : Request).

Definition Eff (A : Type) : Type := A * list Event.

Definition ret {A} (a : A) : Eff A := (a, []).
Definition bind {A B} (m : Eff A) (k : A -> Eff B) : Eff B :=
  let '(a, t1) := m in let '(b, t2) := k a in (b, t1 ++ t2).
Definition emit (e : Event) : Eff unit := (tt, [e]).

Notation "'do' x <- m ; k" := (bind m (fun x => k))
  (at level 10, x pattern, m at level 100, k at level 200).
Notation "'perform' m ; k" := (bind m (fun _ => k))
  (at level 10, m at level 100, k at level 200).

Definition value {A} (m : Eff A) : A := fst m.
Definition events {A} (m : Eff A) : list Event := snd m.

Definition is_http (e : Event) : bool :=
  match e with EvHTTP _ => true | _ => false end.

Definition requests {A} (m : Eff A) : list Event := filter is_http (events m).

(** ** The methods *)

Definition Setup (x : Extern) (f : Fixer) (config : Settings)
  : Eff (Fixer * option error) :=
  if bool_decide (sAPIKeyLvl config < 0 ∨ sAPIKeyLvl config > 4) then
    perform emit (EvLogError ("apikey incorrectly set in config.json for "
                          +:+ sName config
                          +:+ ", please set appropriate account levels")) ;
    ret (f, Some "apikey set failure")
  else
    let name := sName config in
    ret ({| Name := name;
            Enabled := sEnabled config;
            Verbose := sVerbose config;
            RESTPollingDelay := sRESTPollingDelay config;
            APIKey := sAPIKey config;
            APIKeyLvl := sAPIKeyLvl config;
            PrimaryProvider := sPrimaryProvider config;
            FRequester :=
              Some (requestNew name
                      (NewRateLimit (Second * 10) authRate)
                      (NewRateLimit (Second * 10) unAuthRate)
                      (NewHTTPClientWithTimeout (DefaultTimeOut x))) |},
         None).

Definition SendOpenHTTPRequest (x : Extern) (f : Fixer) (endpoint : string)
    (v : Values) (k : ResultKind) (result : ResultT k)
  : Eff (ResultT k * option error) :=
  let v := Values_Set "access_key" (APIKey f) v in
  let '(path, auth) :=
    if bool_decide (APIKeyLvl f = fixerAPIFree)
    then (fixerAPI +:+ endpoint +:+ "?" +:+ Encode x v, false)
    else (fixerAPISSL +:+ endpoint +:+ "?" +:+ Encode x v, true) in
  let r := mkRequest (FRequester f) MethodGet path auth (Verbose f) in
  perform emit (EvHTTP r) ;
  ret (SendPayload x k r result).

Definition GetLatestRates (x : Extern) (f : Fixer) (baseCurrency symbols : string)
  : Eff (option (gmap string float64) * option error) :=
  let v : Values := ∅ in
  let v := if bool_decide (APIKeyLvl f > fixerAPIFree)
           then Values_Add "base" baseCurrency v else v in
  let v := Values_Add "symbols" symbols v in
  do (resp, err) <- SendOpenHTTPRequest x f fixerAPILatest v KRates zeroRates ;
  match err with
  | Some e => ret (rRates resp, Some e)
  | None =>
    if negb (rSuccess resp)
    then ret (rRates resp, Some (Type_ (rError resp) +:+ Info (rError resp)))
    else ret (rRates resp, None)
  end.

(** The [for k, v := range rates] loop of [GetRates].  Ranging over a nil
    map runs the body no times. *)
Definition standardise (baseCurrency : string) (rates : option (gmap string float64))
  : gmap string float64 :=
  map_fold (fun k v acc => <[baseCurrency +:+ k := v]> acc) ∅ (default ∅ rates).

Definition GetRates (x : Extern) (f : Fixer) (baseCurrency symbols : string)
  : Eff (option (gmap string float64) * option error) :=
  do (rates, err) <- GetLatestRates x f baseCurrency symbols ;
  match err with
  | Some e => ret (None, Some e)
  | None =>
    let baseCurrency :=
      if bool_decide (APIKeyLvl f = fixerAPIFree) then "EUR" else baseCurrency in
    ret (Some (standardise baseCurrency rates), None)
  end.

Definition ConvertCurrency (x : Extern) (f : Fixer) (from to date : string)
    (amount : float64) : Eff (float64 * option error) :=
  if bool_decide (APIKeyLvl f < fixerAPIBasic) then
    ret (0, Some "insufficient API privileges, upgrade to basic to use this function")
  else
    let v : Values := ∅ in
    let v := Values_Set "from" from v in
    let v := Values_Set "to" to v in
    let v := Values_Set "amount" (FormatFloat x amount) v in
    let v := Values_Set "date" date v in
    do (resp, err) <- SendOpenHTTPRequest x f fixerAPIConvert v KConversion zeroConversion ;
    match err with
    | Some e => ret (cResult resp, Some e)
    | None =>
      if negb (cSuccess resp)
      then ret (cResult resp, Some (Type_ (cError resp) +:+ Info (cError resp)))
      else ret (cResult resp, None)
    end.

Definition GetTimeSeriesData (x : Extern) (f : Fixer)
    (startDate endDate baseCurrency : string) (symbols : list string)
  : Eff (option (gmap string any) * option error) :=
  if bool_decide (APIKeyLvl f < fixerAPIProfessional) then
    ret (None, Some "insufficient API privileges, upgrade to professional to use this function")
  else
    let v : Values := ∅ in
    let v := Values_Set "start_date" startDate v in
    let v := Values_Set "end_date" endDate v in
    let v := Values_Set "base" baseCurrency v in
    let v := Values_Set "symbols" (JoinStrings symbols ",") v in
    do (resp, err) <- SendOpenHTTPRequest x f fixerAPITimeSeries v KTimeSeries zeroTimeSeries ;
    match err with
    | Some e => ret (tRates resp, Some e)
    | None =>
      if negb (tSuccess resp)
      then ret (tRates resp, Some (Type_ (tError resp) +:+ Info (tError resp)))
      else ret (tRates resp, None)
    end.

Definition GetFluctuationData (x : Extern) (f : Fixer)
    (startDate endDate baseCurrency : string) (symbols : list string)
  : Eff (option (gmap string Flux) * option error) :=
  if bool_decide (APIKeyLvl f < fixerAPIProfessionalPlus) then
    ret (None, Some "insufficient API privileges, upgrade to professional plus or enterprise to use this function")
  else
    let v : Values := ∅ in
    let v := Values_Set "start_date" startDate v in
    let v := Values_Set "end_date" endDate v in
    let v := Values_Set "base" baseCurrency v in
    let v := Values_Set "symbols" (JoinStrings symbols ",") v in
    do (resp, err) <- SendOpenHTTPRequest x f fixerAPIFluctuation v KFluctuation zeroFluctuation ;
    match err with
    | Some e => ret (fRates resp, Some e)
    | None =>
      if negb (fSuccess resp)
      then ret (fRates resp, Some (Type_ (fError resp) +:+ Info (fError resp)))
      else ret (fRates resp, None)
    end.

(** ** The remaining methods *)

Definition GetHistoricalRates (x : Extern) (f : Fixer)
    (date baseCurrency : string) (symbols : list string)
  : Eff (option (gmap string float64) * option error) :=
  let v : Values := ∅ in
  let v := Values_Set "symbols" (JoinStrings symbols ",") v in
  let v := if bool_decide (baseCurrency ≠ "")
           then Values_Set "base" baseCurrency v else v in
  do (resp, err) <- SendOpenHTTPRequest x f date v KRates zeroRates ;
  match err with
  | Some e => ret (rRates resp, Some e)
  | None =>
    if negb (rSuccess resp)
    then ret (rRates resp, Some (Type_ (rError resp) +:+ Info (rError resp)))
    else ret (rRates resp, None)
  end.

(** The response of the [symbols] endpoint, declared in [fixer_types.go]
    like the others. *)
Record Symbols := mkSymbols {
  ySuccess : bool;
  yError : RespError;
  yMap : option (gmap string string)
}.

Definition zeroSymbols : Symbols := mkSymbols false zeroError None.

(** A call either returns or panics. *)
Inductive Res (A : Type) :=
| Returned (a : A)
| Panicked (reason : string).
Arguments Returned {A} a.
Arguments Panicked {A} reason.

(** [url.Values.Set] is [v[key] = []string{value}]: on a nil map the
    assignment panics. *)
Definition Values_Set_nilable (k v : string) (m : option Values) : Res Values :=
  match m with
  | Some m => Returned (Values_Set k v m)
  | None => Panicked "assignment to entry in nil map"
  end.

(** [SendOpenHTTPRequest] once more, for a caller that may pass nil for
    the values and any result type; [send] is the requester's answer for
    that type. *)
Definition SendOpenHTTPRequest_nilable {R : Type}
    (x : Extern) (send : Request -> R -> R * option error)
    (f : Fixer) (endpoint : string) (v : option Values) (result : R)
  : Eff (Res (R * option error)) :=
  match Values_Set_nilable "access_key" (APIKey f) v with
  | Panicked reason => ret (Panicked reason)
  | Returned v =>
    let '(path, auth) :=
      if bool_decide (APIKeyLvl f = fixerAPIFree)
      then (fixerAPI +:+ endpoint +:+ "?" +:+ Encode x v, false)
      else (fixerAPISSL +:+ endpoint +:+ "?" +:+ Encode x v, true) in
    let r := mkRequest (FRequester f) MethodGet path auth (Verbose f) in
    perform emit (EvHTTP r) ;
    ret (Returned (send r result))
  end.

(** [GetSupportedCurrencies] passes nil for the values.  The keys of the
    response are collected in the order the map is ranged over, which Go
    leaves open; here it is the order of [map_to_list]. *)
Definition GetSupportedCurrencies (x : Extern)
    (send : Request -> Symbols -> Symbols * option error) (f : Fixer)
  : Eff (Res (option (list string) * option error)) :=
  do r <- SendOpenHTTPRequest_nilable x send f fixerSupportedCurrencies None zeroSymbols ;
  match r with
  | Panicked reason => ret (Panicked reason)
  | Returned (resp, Some e) => ret (Returned (None, Some e))
  | Returned (resp, None) =>
    if negb (ySuccess resp)
    then ret (Returned (None, Some (Type_ (yError resp) +:+ Info (yError resp))))
    else
      let currencies :=
        match yMap resp with
        | Some m => match (map_to_list m).*1 with [] => None | l => Some l end
        | None => None
        end in
      ret (Returned (currencies, None))
  end.

(** ** Reading a request *)

(** [r] is the request the provider [f] sends to [endpoint]: a GET through
    its requester, with its verbosity; the values carry its key as
    [access_key]; the free tier goes to the plain address without
    authentication, every other tier to the SSL address with it. *)
Definition request_for (x : Extern) (f : Fixer) (endpoint : string) (r : Request)
  : Prop :=
  reqVia r = FRequester f
  ∧ reqMethod r = MethodGet
  ∧ reqVerbose r = Verbose f
  ∧ ∃ v : Values,
      v !! "access_key" = Some [APIKey f]
      ∧ if bool_decide (APIKeyLvl f = fixerAPIFree)
        then reqPath r = fixerAPI +:+ endpoint +:+ "?" +:+ Encode x v
             ∧ reqAuth r = false
        else reqPath r = fixerAPISSL +:+ endpoint +:+ "?" +:+ Encode x v
             ∧ reqAuth r = true.

(** The error a method makes of a reply: the transport's error as it is,
    else the type and info of the response when its success flag is off. *)
Definition reply_error (transport : option error) (success : bool) (e : RespError)
  : option error :=
  match transport with
  | Some err => Some err
  | None => if negb success then Some (Type_ e +:+ Info e) else None
  end.

(** What a method returns is made of a reply: the payload of the response
    as it is, no error exactly when the transport gave none and the
    success flag is on, and the transport's error untouched. *)
Definition made_of {A : Type} (result : A * option error) (payload : A)
    (transport : option error) (success : bool) : Prop :=
  fst result = payload
  ∧ (snd result = None ↔ transport = None ∧ success = true)
  ∧ (∀ e, transport = Some e -> snd result = Some e).

End Fixer.

Module Dbmigrate.

(** ** The migration tool: [package main]

    The packages [config], [core], [database], its drivers, [repository]
    and [goose] are outside the sources.  What [main] needs of them is
    gathered in [World]: the constants it compares with and prints, and
    for each call the value the call returns. *)

(** [*sql.DB], the field [SQL] of [database.Db]. *)
Inductive SQLHandle := sqlDB (id : nat).

Record Db := mkDb { SQL : SQLHandle }.

(** The fields of [config.Config.Database] that [main] reads. *)
Record DatabaseConfig := mkDatabaseConfig {
  Enabled : bool;
  Driver : string;
  Host : string;
  Database_ : string
}.

Record Config := mkConfig { Database : DatabaseConfig }.

Definition zeroConfig : Config := mkConfig (mkDatabaseConfig false "" "" "").

(** The package-level variables after [flag.Parse] has returned. *)
Record Flags := mkFlags {
  configFile : string;
  defaultDataDir : string;
  migrationDir : string;
  command : string;
  args : string
}.

Inductive DriverPkg := dbPSQL | dbsqlite3.

Record World := mkWorld {
  Copyright : string;
  DBPostgreSQL : string;
  DBSQLite : string;
  DBSQLite3 : string;
  (* conf.LoadConfig(file, true): the loaded configuration and the error *)
  LoadConfig : string -> bool -> Config * option error;
  (* dbPSQL.Connect() and dbsqlite3.Connect() *)
  Connect : DriverPkg -> option Db * option error;
  GetSQLDialect : string;
  (* goose.Run(command, db, dialect, dir, args) *)
  gooseRun : string -> SQLHandle -> string -> string -> string -> option error
}.

(** What a run does that can be observed: lines on standard output, the
    usage text, and the calls that leave the process, each with the error
    it returned. *)
Inductive Event :=
| Println (line : string)
| Usage
| CallLoadConfig (file : string) (err : option error)
| CallConnect (pkg : DriverPkg) (err : option error)
| CallGooseRun (cmd : string) (db : SQLHandle) (dialect dir arg : string)
               (err : option error).

(** How a piece of [main] ends: it goes on with a value, [os.Exit] is
    called, or it panics (a nil pointer is dereferenced). *)
Inductive Ending (A : Type) :=
| Next (a : A)
| Exit (code : Z)
| Panic.
Arguments Next {A} a.
Arguments Exit {A} code.
Arguments Panic {A}.

Definition Proc (A : Type) : Type := Ending A * list Event.

Definition ret {A} (a : A) : Proc A := (Next a, []).
Definition bind {A B} (m : Proc A) (k : A -> Proc B) : Proc B :=
  match m with
  | (Next a, t1) => let '(b, t2) := k a in (b, t1 ++ t2)
  | (Exit c, t1) => (Exit c, t1)
  | (Panic, t1) => (Panic, t1)
  end.
Definition emit (e : Event) : Proc unit := (Next tt, [e]).
Definition osExit {A} (code : Z) : Proc A := (Exit code, []).
Definition panic {A} : Proc A := (Panic, []).

Notation "'do' x <- m ; k" := (bind m (fun x => k))
  (at level 10, x pattern, m at level 100, k at level 200).
Notation "'perform' m ; k" := (bind m (fun _ => k))
  (at level 10, m at level 100, k at level 200).

Definition trace {A} (m : Proc A) : list Event := snd m.

(** The status the process ends with: 0 when [main] returns, the argument
    of [os.Exit], 2 for a panic. *)
Definition exit_status {A} (m : Proc A) : Z :=
  match fst m with
  | Next _ => 0
  | Exit c => c
  | Panic => 2
  end.

Definition connect_failed (e : error) : error :=
  "database failed to connect: " +:+ e
  +:+ ", some features that utilise a database will be unavailable".

(** [openDbConnection] assigns the package variable [dbConn]: it takes the
    old value and returns the new one with its error. *)
Definition openDbConnection (w : World) (dbConn : option Db) (driver : string)
  : Proc (option Db * option error) :=
  if bool_decide (driver = DBPostgreSQL w) then
    let '(conn, err) := Connect w dbPSQL in
    perform emit (CallConnect dbPSQL err) ;
    match err with
    | Some e => ret (conn, Some (connect_failed e))
    | None => ret (conn, None)
    end
  else if bool_decide (driver = DBSQLite w ∨ driver = DBSQLite3 w) then
    let '(conn, err) := Connect w dbsqlite3 in
    perform emit (CallConnect dbsqlite3 err) ;
    match err with
    | Some e => ret (conn, Some (connect_failed e))
    | None => ret (conn, None)
    end
  else ret (dbConn, Some "no connection established").

(** [dbConn.SQL] *)
Definition deref_SQL (dbConn : option Db) : Proc SQLHandle :=
  match dbConn with
  | Some d => ret (SQL d)
  | None => panic
  end.

Definition main (w : World) (fl : Flags) : Proc unit :=
  perform emit (Println "GoCryptoTrader database migration tool") ;
  perform emit (Println (Copyright w)) ;
  perform emit (Println "") ;
  let '(conf, err) := LoadConfig w (configFile fl) true in
  perform emit (CallLoadConfig (configFile fl) err) ;
  perform match err with
          | Some e => perform emit (Println e) ; osExit 1
          | None => ret tt
          end ;
  perform (if negb (Enabled (Database conf))
           then perform emit (Println "Database support is disabled") ; osExit 1
           else ret tt) ;
  do (dbConn, err) <- openDbConnection w None (Driver (Database conf)) ;
  perform match err with
          | Some e => perform emit (Println e) ; osExit 1
          | None => ret tt
          end ;
  let drv := GetSQLDialect w in
  perform (if bool_decide (drv = DBSQLite w ∨ drv = DBSQLite3 w)
           then emit (Println ("Database file: " +:+ Database_ (Database conf)))
           else emit (Println ("Connected to: " +:+ Host (Database conf)))) ;
  if bool_decide (command fl = "") then
    do db <- deref_SQL dbConn ;
    let _ := gooseRun w "status" db drv (migrationDir fl) "" in
    perform emit (CallGooseRun "status" db drv (migrationDir fl) ""
                    (gooseRun w "status" db drv (migrationDir fl) "")) ;
    perform emit (Println "") ;
    perform emit Usage ;
    ret tt
  else
    do db <- deref_SQL dbConn ;
    let err := gooseRun w (command fl) db drv (migrationDir fl) (args fl) in
    perform emit (CallGooseRun (command fl) db drv (migrationDir fl) (args fl) err) ;
    match err with
    | Some e => emit (Println e)
    | None => ret tt
    end.

(** ** Reading a trace *)

Definition db_interaction (e : Event) : bool :=
  match e with
  | CallConnect _ _ | CallGooseRun _ _ _ _ _ _ => true
  | _ => false
  end.

(** The ledger is reached through [goose.Run] only. *)
Definition ledger_access (e : Event) : bool :=
  match e with
  | CallGooseRun _ _ _ _ _ _ => true
  | _ => false
  end.

(** What the user sees: the lines printed and the usage text. *)
Definition shown (e : Event) : bool :=
  match e with
  | Println _ | Usage => true
  | _ => false
  end.

Definition output {A} (m : Proc A) : list Event := filter shown (trace m).

Definition event_error (e : Event) : option error :=
  match e with
  | CallLoadConfig _ err | CallConnect _ err | CallGooseRun _ _ _ _ _ err => err
  | _ => None
  end.

Definition mentions (e : error) (line : string) : Prop :=
  ∃ a b, line = a +:+ e +:+ b.

(** Every call in the trace that returned an error is followed by a
    printed line that quotes the error. *)
Fixpoint surfaced (t : list Event) : Prop :=
  match t with
  | [] => True
  | ev :: rest =>
    (∀ e, event_error ev = Some e ->
          ∃ line, In (Println line) rest ∧ mentions e line)
    ∧ surfaced rest
  end.

(** The same world with another [goose.Run]. *)
Definition with_goose
    (g : string -> SQLHandle -> string -> string -> string -> option error)
    (w : World) : World :=
  mkWorld (Copyright w) (DBPostgreSQL w) (DBSQLite w) (DBSQLite3 w)
          (LoadConfig w) (Connect w) (GetSQLDialect w) g.

Definition with_command (c : string) (fl : Flags) : Flags :=
  mkFlags (configFile fl) (defaultDataDir fl) (migrationDir fl) c (args fl).

(** The commands the specification lists for the command line. *)
Definition listed_commands : list string :=
  ["status"; "up"; "up-by-one"; "up-to"; "down"; "down-to"; "create"].

(** Startup went through: the configuration loaded, database support is
    on, and the connection was opened and yielded a handle. *)
Definition started (w : World) (fl : Flags) (conf : Config) (db : Db) : Prop :=
  LoadConfig w (configFile fl) true = (conf, None)
  ∧ Enabled (Database conf) = true
  ∧ fst (openDbConnection w None (Driver (Database conf))) = Next (Some db, None).

(** The lines [main] prints first, and the line it prints once connected. *)
Definition banner (w : World) : list Event :=
  [Println "GoCryptoTrader database migration tool";
   Println (Copyright w);
   Println ""].

Definition connected_line (w : World) (conf : Config) : Event :=
  if bool_decide (GetSQLDialect w = DBSQLite w ∨ GetSQLDialect w = DBSQLite3 w)
  then Println ("Database file: " +:+ Database_ (Database conf))
  else Println ("Connected to: " +:+ Host (Database conf)).

(** The same flags with another data directory, and with other args. *)
Definition with_datadir (d : string) (fl : Flags) : Flags :=
  mkFlags (configFile fl) d (migrationDir fl) (command fl) (args fl).

Definition with_args (a : string) (fl : Flags) : Flags :=
  mkFlags (configFile fl) (defaultDataDir fl) (migrationDir fl) (command fl) a.

Definition is_connect (e : Event) : bool :=
  match e with CallConnect _ _ => true | _ => false end.

Definition is_load (e : Event) : bool :=
  match e with CallLoadConfig _ _ => true | _ => false end.

End Dbmigrate.

Module Engine.

(** ** The migration engine

    [main] delegates to [goose.Run]; the library that implements the
    registry, the ledger, the planner and the runner is not among the
    sources.  Every definition of this module is written from sections 3
    and 4 of the specification. *)

(** Modelled from the spec: the library behind [goose.Run] is missing; a
    Migration is [{version, name, upScript, downScript}] (section 3). *)
Record Migration := mkMigration {
  version : Z;
  name : string;
  upScript : string;
  downScript : string
}.

(** Modelled from the spec: the library behind [goose.Run] is missing; a
    migration source after its file name and its Up and Down markers have
    been read (sections 4.2 and 6); a section that is absent is [None]. *)
Record Source := mkSource {
  srcVersion : Z;
  srcName : string;
  srcUp : option string;
  srcDown : option string
}.

(** Modelled from the spec: the library behind [goose.Run] is missing; the
    direction of a plan step (section 3). *)
Inductive Direction := Up | Down.

(** Modelled from the spec: the library behind [goose.Run] is missing; a plan
    is an ordered sequence of [{migration, direction}] (section 3). *)
Definition Step : Type := Migration * Direction.
Definition Plan : Type := list Step.

(** Modelled from the spec: the library behind [goose.Run] is missing; the
    commands of the planner's table (section 4.4) and [create]
    (section 4.6). *)
Inductive Command :=
| Status
| CmdUp
| UpByOne
| UpTo (target : Z)
| CmdDown
| DownTo (target : Z)
| Create (name : string).

(** Modelled from the spec: the library behind [goose.Run] is missing; the
    errors named in sections 4.2 to 4.5.  An execution error carries the
    failing version and the last version completed before it. *)
Inductive EngineError :=
| DuplicateVersionError
| MalformedMigrationError
| EmptySetError
| DuplicateApplyError (v : Z)
| NotAppliedError (v : Z)
| NothingToDoError
| UnknownVersionError (v : Z)
| LockContentionError
| ExecutionError (failing : Z) (lastCompleted : option Z).

(** Modelled from the spec: the library behind [goose.Run] is missing; the
    values of [placeholderStyle()] (section 4.1). *)
Inductive PlaceholderStyle := QuestionMark | DollarNumber.

(** Modelled from the spec: the library behind [goose.Run] is missing; the
    capability queries of a DialectAdapter (section 4.1). *)
Record Dialect := mkDialect {
  supportsTransactionalDDL : bool;
  quoteIdentifier : string -> string;
  ledgerTableDDL : string;
  placeholderStyle : PlaceholderStyle
}.

(** *** MigrationRegistry (section 4.2) *)

(** Modelled from the spec: the library behind [goose.Run] is missing; the
    commands that only move forward (section 6). *)
Definition forward_only (c : Command) : bool :=
  match c with
  | CmdUp | UpByOne | UpTo _ => true
  | _ => false
  end.

(** Modelled from the spec: the library behind [goose.Run] is missing; a
    source needs both sections, except that a missing Down section is
    tolerated when the command is forward-only and irreversible migrations
    are permitted (section 6). *)
Definition parse (permitIrreversible : bool) (c : Command) (s : Source)
  : option Migration :=
  match srcUp s, srcDown s with
  | Some up, Some down => Some (mkMigration (srcVersion s) (srcName s) up down)
  | Some up, None =>
    if permitIrreversible && forward_only c
    then Some (mkMigration (srcVersion s) (srcName s) up "")
    else None
  | None, _ => None
  end.

(** Modelled from the spec: the library behind [goose.Run] is missing; the
    registry orders by ascending version, with no second key
    (section 4.2); an insertion sort does it. *)
Fixpoint insert_by_version (m : Migration) (l : list Migration) : list Migration :=
  match l with
  | [] => [m]
  | x :: r => if version m <=? version x then m :: l
              else x :: insert_by_version m r
  end.

Definition sort_by_version (l : list Migration) : list Migration :=
  foldr insert_by_version [] l.

Definition is_create (c : Command) : bool :=
  match c with Create _ => true | _ => false end.

(** Modelled from the spec: the library behind [goose.Run] is missing;
    [Load(sourceLocation) -> MigrationSet | RegistryError], ascending by
    version, no partial registry on failure. *)
Definition Load (permitIrreversible : bool) (c : Command) (srcs : list Source)
  : EngineError + list Migration :=
  match mapM (parse permitIrreversible c) srcs with
  | None => inl MalformedMigrationError
  | Some ms =>
    if bool_decide (NoDup (version <$> ms)) then
      match ms with
      | [] => if is_create c then inr [] else inl EmptySetError
      | _ => inr (sort_by_version ms)
      end
    else inl DuplicateVersionError
  end.

(** *** VersionLedger (section 4.3): version to [appliedAt] *)

Abbreviation Ledger := (gmap Z Z).

(** Modelled from the spec: the library behind [goose.Run] is missing;
    [GetApplied() -> set of version]. *)
Definition GetApplied (l : Ledger) : gset Z := dom l.

(** Modelled from the spec: the library behind [goose.Run] is missing;
    [RecordApplied] inserts one record and fails on a version already
    present. *)
Definition RecordApplied (v now : Z) (l : Ledger) : EngineError + Ledger :=
  match l !! v with
  | Some _ => inl (DuplicateApplyError v)
  | None => inr (<[v := now]> l)
  end.

(** Modelled from the spec: the library behind [goose.Run] is missing;
    [RecordRolledBack] deletes the record and fails on a version that is
    absent. *)
Definition RecordRolledBack (v : Z) (l : Ledger) : EngineError + Ledger :=
  match l !! v with
  | Some _ => inr (delete v l)
  | None => inl (NotAppliedError v)
  end.

(** *** MigrationPlanner (section 4.4) *)

(** Modelled from the spec: the library behind [goose.Run] is missing; the
    pending and the applied migrations of the registry, in its order. *)
Definition pending (ms : list Migration) (applied : gset Z) : list Migration :=
  filter (fun m => version m ∉ applied) ms.

Definition applied_in (ms : list Migration) (applied : gset Z) : list Migration :=
  filter (fun m => version m ∈ applied) ms.

Definition known (ms : list Migration) (v : Z) : bool :=
  bool_decide (v ∈ version <$> ms).

Definition ups (ms : list Migration) : Plan := (fun m => (m, Up)) <$> ms.
Definition downs (ms : list Migration) : Plan := (fun m => (m, Down)) <$> ms.

(** Modelled from the spec: the library behind [goose.Run] is missing; the
    plan of each command, row by row of the table.  [status] and [create]
    execute nothing. *)
Definition compute_plan (ms : list Migration) (applied : gset Z) (c : Command)
  : EngineError + Plan :=
  match c with
  | Status | Create _ => inr []
  | CmdUp => inr (ups (pending ms applied))
  | UpByOne => inr (ups (take 1 (pending ms applied)))
  | UpTo V =>
    if known ms V
    then inr (ups (filter (fun m => version m ≤ V) (pending ms applied)))
    else inl (UnknownVersionError V)
  | CmdDown => inr (downs (take 1 (reverse (applied_in ms applied))))
  | DownTo V =>
    if known ms V
    then inr (downs (reverse (filter (fun m => V < version m) (applied_in ms applied))))
    else inl (UnknownVersionError V)
  end.

(** Modelled from the spec: the library behind [goose.Run] is missing; the
    planner fails with [NothingToDoError] when the computed plan is
    empty. *)
Definition plan (ms : list Migration) (applied : gset Z) (c : Command)
  : EngineError + Plan :=
  match compute_plan ms applied c with
  | inr [] => inl NothingToDoError
  | r => r
  end.

(** Modelled from the spec: the library behind [goose.Run] is missing;
    [status] reports each version as applied or pending. *)
Definition status_report (ms : list Migration) (applied : gset Z)
  : list (Z * bool) :=
  (fun m => (version m, bool_decide (version m ∈ applied))) <$> ms.

(** *** MigrationRunner (section 4.5) *)

(** Modelled from the spec: the library behind [goose.Run] is missing; how a
    step ends: committed, or rolled back because the script failed or
    because the ledger operation did (section 4.5). *)
Inductive StepResult :=
| StepCommitted
| StepScriptFailed
| StepLedgerFailed (e : EngineError).

(** One executed step, as an observer of the database would note it. *)
Record ExecEvent := mkExecEvent {
  evVersion : Z;
  evDir : Direction;
  evResult : StepResult
}.

Section Runner.

(** The schema of the target database, and what executing a script text
    on it does: the schema the script leaves and whether it succeeded. *)
Context {Schema : Type}.
Variable execScript : string -> Schema -> Schema * bool.
Variable dialect : Dialect.

(** Modelled from the spec: the library behind [goose.Run] is missing; the
    target database: the ledger table, the schema, the advisory lock.
    [history] lists the steps executed so far; the engine never reads it,
    it is there for the guarantees to be stated. *)
Record State := mkState {
  ledger : Ledger;
  schema : Schema;
  locked : bool;
  history : list ExecEvent
}.

Definition set_locked (b : bool) (st : State) : State :=
  mkState (ledger st) (schema st) b (history st).

Definition script_of (s : Step) : string :=
  match snd s with
  | Up => upScript (fst s)
  | Down => downScript (fst s)
  end.

Definition record_step (now : Z) (s : Step) (l : Ledger) : EngineError + Ledger :=
  match snd s with
  | Up => RecordApplied (version (fst s)) now l
  | Down => RecordRolledBack (version (fst s)) l
  end.

(** Modelled from the spec: the library behind [goose.Run] is missing; one
    plan step (section 4.5, item 3): the script runs, on success the ledger
    is updated with it and both are committed; on failure the step is
    rolled back, which restores the schema when the dialect has
    transactional DDL and otherwise leaves what the script did. *)
Definition exec_step (now : Z) (st : State) (s : Step) : State * StepResult :=
  let '(schema', ok) := execScript (script_of s) (schema st) in
  let rolled_back := if supportsTransactionalDDL dialect then schema st else schema' in
  let note r := history st ++ [mkExecEvent (version (fst s)) (snd s) r] in
  if ok then
    match record_step now s (ledger st) with
    | inr l' => (mkState l' schema' (locked st) (note StepCommitted), StepCommitted)
    | inl e => (mkState (ledger st) rolled_back (locked st) (note (StepLedgerFailed e)),
                StepLedgerFailed e)
    end
  else (mkState (ledger st) rolled_back (locked st) (note StepScriptFailed),
        StepScriptFailed).

(** Modelled from the spec: the library behind [goose.Run] is missing; what
    an invocation reports: completion, the status report, the source
    [create] wrote, or an error (section 7). *)
Inductive Outcome :=
| Done
| Report (r : list (Z * bool))
| NewSource (s : Source)
| Problem (e : EngineError).

(** Modelled from the spec: the library behind [goose.Run] is missing; the
    steps of a plan in order, stopping at the first that fails. *)
Fixpoint run_plan (now : Z) (p : Plan) (last : option Z) (st : State)
  : State * Outcome :=
  match p with
  | [] => (st, Done)
  | s :: rest =>
    match exec_step now st s with
    | (st', StepCommitted) => run_plan now rest (Some (version (fst s))) st'
    | (st', _) => (st', Problem (ExecutionError (version (fst s)) last))
    end
  end.

(** Modelled from the spec: the library behind [goose.Run] is missing; one
    invocation: the sources found, the command, the clock, and whether
    irreversible migrations are permitted (section 6). *)
Record Invocation := mkInvocation {
  sources : list Source;
  cmd : Command;
  now : Z;
  permitIrreversible : bool
}.

(** Modelled from the spec: the library behind [goose.Run] is missing;
    [Create(name)] writes an up/down skeleton under the current
    timestamp (section 4.6). *)
Definition CreateSource (now : Z) (nm : string) : Source :=
  mkSource now nm (Some "") (Some "").

(** Modelled from the spec: the library behind [goose.Run] is missing;
    what the runner does between acquiring and releasing the lock. *)
Definition under_lock (inv : Invocation) (st : State) : State * Outcome :=
  match Load (permitIrreversible inv) (cmd inv) (sources inv) with
  | inl e => (st, Problem e)
  | inr ms =>
    match cmd inv with
    | Status => (st, Report (status_report ms (GetApplied (ledger st))))
    | c =>
      match plan ms (GetApplied (ledger st)) c with
      | inl e => (st, Problem e)
      | inr p => run_plan (now inv) p None st
      end
    end
  end.

(** Modelled from the spec: the library behind [goose.Run] is missing; a
    whole run: lock, plan from the ledger read under the lock, execute,
    release the lock on every path. *)
Definition run (inv : Invocation) (st : State) : State * Outcome :=
  match cmd inv with
  | Create nm => (st, NewSource (CreateSource (now inv) nm))
  | _ =>
    if locked st then (st, Problem LockContentionError)
    else
      let '(st', o) := under_lock inv (set_locked true st) in
      (set_locked false st', o)
  end.

(** Modelled from the spec: the library behind [goose.Run] is missing; the
    runner as the state machine
    [Idle -> LockAcquired -> Executing -> (Committed | Aborted) -> Idle]. *)
Inductive Phase :=
| Idle
| LockAcquired
| Executing (rest : Plan) (last : option Z)
| Committed
| Aborted (e : EngineError).

Definition Runner : Type := Phase * State.

(** Modelled from the spec: the library behind [goose.Run] is missing; one
    move of the state machine (section 4.5, items 1 to 4). *)
Definition runner_step (inv : Invocation) (r : Runner) : Runner :=
  let '(ph, st) := r in
  match ph with
  | Idle =>
    if is_create (cmd inv) then (Idle, st)
    else if locked st then (Idle, st)
    else (LockAcquired, set_locked true st)
  | LockAcquired =>
    match Load (permitIrreversible inv) (cmd inv) (sources inv) with
    | inl e => (Aborted e, st)
    | inr ms =>
      match cmd inv with
      | Status => (Committed, st)
      | c =>
        match plan ms (GetApplied (ledger st)) c with
        | inl e => (Aborted e, st)
        | inr p => (Executing p None, st)
        end
      end
    end
  | Executing [] _ => (Committed, st)
  | Executing (s :: rest) last =>
    match exec_step (now inv) st s with
    | (st', StepCommitted) => (Executing rest (Some (version (fst s))), st')
    | (st', _) => (Aborted (ExecutionError (version (fst s)) last), st')
    end
  | Committed | Aborted _ => (Idle, set_locked false st)
  end.

(** Modelled from the spec: the library behind [goose.Run] is missing; the
    states the engine can be in: a fresh database, whatever a move of the
    runner leads to, and the idle state an interrupted run leaves (the
    step in flight is rolled back, the lock is released; section 5). *)
Inductive reachable : Runner -> Prop :=
| reach_fresh (s0 : Schema) : reachable (Idle, mkState ∅ s0 false [])
| reach_step (inv : Invocation) (r : Runner) :
    reachable r -> reachable (runner_step inv r)
| reach_interrupt (ph : Phase) (st : State) :
    reachable (ph, st) -> reachable (Idle, set_locked false st).

(** The versions a history leaves applied: a committed up adds its
    version, a committed down removes it, a failed step changes nothing. *)
Definition replay_event (acc : gset Z) (e : ExecEvent) : gset Z :=
  match evResult e, evDir e with
  | StepCommitted, Up => {[evVersion e]} ∪ acc
  | StepCommitted, Down => acc ∖ {[evVersion e]}
  | _, _ => acc
  end.

Definition replay (h : list ExecEvent) : gset Z := foldl replay_event ∅ h.

Definition committed_up (v : Z) : ExecEvent := mkExecEvent v Up StepCommitted.

(** The ledger holds exactly the versions that the history leaves
    applied. *)
Definition ledger_exact (st : State) : Prop :=
  GetApplied (ledger st) = replay (history st).

End Runner.

Definition is_committed (e : ExecEvent) : bool :=
  match evResult e with StepCommitted => true | _ => false end.

(** The direction of the last committed step of version [v], if any. *)
Definition last_committed (v : Z) (h : list ExecEvent) : option Direction :=
  foldl (fun acc e => if is_committed e && bool_decide (evVersion e = v)
                      then Some (evDir e) else acc) None h.

(** The events a plan leaves when every step of it commits. *)
Definition committed_events (p : Plan) : list ExecEvent :=
  (fun s => mkExecEvent (version (fst s)) (snd s) StepCommitted) <$> p.

End Engine.

(** * Concrete inputs used by the examples *)

Module Samples.
Import Fixer.

(** A remote that answers [latest] with two rates and nothing else. *)
Definition two_rates : gmap string float64 := {[ "USD" := 1; "GBP" := 2 ]}.

Definition answer (k : ResultKind) : Request -> ResultT k -> ResultT k * option error :=
  match k return Request -> ResultT k -> ResultT k * option error with
  | KRates => fun _ _ => (mkRates true zeroError (Some two_rates), None)
  | _ => fun _ r => (r, Some "not served")
  end.

Definition extern : Extern :=
  mkExtern (fun _ => "") (fun _ => "") (15 * Second) answer.

Definition blank : Fixer := mkFixer "" false false 0 "" 0 false None.

Definition settings (lvl : Z) : Settings :=
  mkSettings "Fixer" true false 600 "key" lvl true.

Definition free_tier : Fixer := mkFixer "Fixer" true false 600 "key" 0 true None.
Definition basic_tier : Fixer := mkFixer "Fixer" true false 600 "key" 1 true None.

(** A configured PostgreSQL database that can be connected to, and a
    [goose.Run] that returns [result cmd] for the command [cmd]. *)
Definition pg_config : Dbmigrate.Config :=
  Dbmigrate.mkConfig (Dbmigrate.mkDatabaseConfig true "postgres" "localhost" "gct").

Definition pg_db : Dbmigrate.Db := Dbmigrate.mkDb (Dbmigrate.sqlDB 1).

Definition pg_world (result : string -> option error) : Dbmigrate.World :=
  Dbmigrate.mkWorld "(c) GoCryptoTrader" "postgres" "sqlite" "sqlite3"
    (fun _ _ => (pg_config, None))
    (fun _ => (Some pg_db, None))
    "postgres"
    (fun c _ _ _ _ => result c).

(** The same, with a configuration file that cannot be read. *)
Definition unreadable_world : Dbmigrate.World :=
  Dbmigrate.mkWorld "(c) GoCryptoTrader" "postgres" "sqlite" "sqlite3"
    (fun _ _ => (Dbmigrate.zeroConfig, Some "open config.json: no such file"))
    (fun _ => (Some pg_db, None))
    "postgres"
    (fun _ _ _ _ _ => None).

(** The same, with a server that refuses the connection. *)
Definition refusing_world : Dbmigrate.World :=
  Dbmigrate.mkWorld "(c) GoCryptoTrader" "postgres" "sqlite" "sqlite3"
    (fun _ _ => (pg_config, None))
    (fun _ => (None, Some "connection refused"))
    "postgres"
    (fun _ _ _ _ _ => None).

Definition flags (c : string) : Dbmigrate.Flags :=
  Dbmigrate.mkFlags "config.json" "/data" "migrations" c "".

Definition always_fails (c : string) : option error := Some "migration failed".
Definition never_fails (c : string) : option error := None.

(** A database whose schema is the list of the scripts that ran on it; the
    script FAIL fails, every other script succeeds. *)
Definition scripted (script : string) (done : list string) : list string * bool :=
  (done ++ [script], negb (String.eqb script "FAIL")).

Definition postgres : Engine.Dialect :=
  Engine.mkDialect true (fun s => s) "CREATE TABLE goose_db_version" Engine.DollarNumber.

(** Three sources, found out of order; the up script of version 3 fails. *)
Definition three_sources : list Engine.Source :=
  [Engine.mkSource 3 "add_idx" (Some "FAIL") (Some "D3");
   Engine.mkSource 1 "init" (Some "U1") (Some "D1");
   Engine.mkSource 2 "add_col" (Some "U2") (Some "D2")].

Definition up_at (t : Z) : Engine.Invocation :=
  Engine.mkInvocation three_sources Engine.CmdUp t false.

Definition two_sources : list Engine.Source :=
  [Engine.mkSource 2 "add_col" (Some "U2") (Some "D2");
   Engine.mkSource 1 "init" (Some "U1") (Some "D1")].

Definition up_two_at (t : Z) : Engine.Invocation :=
  Engine.mkInvocation two_sources Engine.CmdUp t false.

Definition fresh : Engine.State (Schema := list string) :=
  Engine.mkState ∅ [] false [].

(** The runner in the middle of [up] over the three sources: versions 1
    and 2 are done, version 3 is next. *)
Definition mid_run : Engine.Runner (Schema := list string) :=
  Engine.runner_step scripted postgres (up_at 100)
    (Engine.runner_step scripted postgres (up_at 100)
       (Engine.runner_step scripted postgres (up_at 100)
          (Engine.runner_step scripted postgres (up_at 100)
             (Engine.Idle, fresh)))).

Definition m1 : Engine.Migration := Engine.mkMigration 1 "init" "U1" "D1".
Definition m2 : Engine.Migration := Engine.mkMigration 2 "add_col" "U2" "D2".
Definition m3 : Engine.Migration := Engine.mkMigration 3 "add_idx" "FAIL" "D3".

Definition enterprise_tier : Fixer.Fixer :=
  Fixer.mkFixer "Fixer" true true 600 "key" 4 true None.

(** A sqlite configuration whose driver hands back no handle and no
    error. *)
Definition sqlite_config : Dbmigrate.Config :=
  Dbmigrate.mkConfig (Dbmigrate.mkDatabaseConfig true "sqlite3" "" "gct.db").

Definition handleless_world : Dbmigrate.World :=
  Dbmigrate.mkWorld "(c) GoCryptoTrader" "postgres" "sqlite" "sqlite3"
    (fun _ _ => (sqlite_config, None))
    (fun _ => (None, None))
    "sqlite3"
    (fun _ _ _ _ _ => None).

End Samples.

(** * The Fixer provider *)

Section FixerFacts.
Import Fixer.
Variable x : Extern.

Lemma Setup_rejected (f : Fixer) (config : Settings) :
  sAPIKeyLvl config < 0 ∨ sAPIKeyLvl config > 4 ->
  value (Setup x f config) = (f, Some "apikey set failure").
Proof.
  intros H. unfold Setup. rewrite bool_decide_eq_true_2 by exact H. reflexivity.
Qed.

Lemma Setup_accepted (f : Fixer) (config : Settings) :
  ¬ (sAPIKeyLvl config < 0 ∨ sAPIKeyLvl config > 4) ->
  snd (value (Setup x f config)) = None
  ∧ events (Setup x f config) = [].
Proof.
  intros H. unfold Setup. rewrite bool_decide_eq_false_2 by exact H. split; reflexivity.
Qed.

(** C8: [Setup] returns an error exactly when the level in the settings is
    below 0 or above 4; when it does, the receiver is what it was; when it
    does not, the seven fields have the values of the settings. *)
Theorem Setup_error_iff_level_out_of_range (f : Fixer) (config : Settings) :
  let f' := fst (value (Setup x f config)) in
  let err := snd (value (Setup x f config)) in
  (is_Some err ↔ sAPIKeyLvl config < 0 ∨ sAPIKeyLvl config > 4)
  ∧ (is_Some err -> f' = f)
  ∧ (err = None ->
       APIKey f' = sAPIKey config
       ∧ APIKeyLvl f' = sAPIKeyLvl config
       ∧ Enabled f' = sEnabled config
       ∧ Name f' = sName config
       ∧ RESTPollingDelay f' = sRESTPollingDelay config
       ∧ Verbose f' = sVerbose config
       ∧ PrimaryProvider f' = sPrimaryProvider config).
Proof.
  cbv zeta.
  destruct (decide (sAPIKeyLvl config < 0 ∨ sAPIKeyLvl config > 4)) as [Hbad | Hok].
  - rewrite (Setup_rejected f config Hbad). cbn [fst snd].
    split; [split; eauto | split; [reflexivity | discriminate]].
  - destruct (Setup_accepted f config Hok) as [Hnone _].
    rewrite Hnone. split; [| split].
    + split; [intros [e He]; discriminate | intros; contradiction].
    + intros [e He]; discriminate.
    + intros _. unfold Setup. rewrite bool_decide_eq_false_2 by exact Hok.
      cbn. repeat split.
Qed.

(** The loop of [GetRates] maps the symbol [sym] to the key
    [baseCurrency +:+ sym] and keeps its rate. *)
Lemma standardise_lookup (b : string) (rates : option (gmap string float64))
    (key : string) (v : float64) :
  standardise b rates !! key = Some v
  ↔ ∃ sym, key = b +:+ sym ∧ default ∅ rates !! sym = Some v.
Proof.
  unfold standardise. generalize (default ∅ rates). intros m.
  apply (map_fold_weak_ind
           (fun acc m => acc !! key = Some v
                         ↔ ∃ sym, key = b +:+ sym ∧ m !! sym = Some v)).
  - split; [intros H | intros (sym & _ & H)]; rewrite lookup_empty in H; discriminate.
  - intros i a m' acc Hfresh IH.
    destruct (decide (key = b +:+ i)) as [-> | Hne].
    + rewrite lookup_insert_eq. split.
      * intros [= ->]. exists i. by rewrite lookup_insert_eq.
      * intros (sym & Heq & Hs). apply (inj (String.app b)) in Heq. subst sym.
        by rewrite lookup_insert_eq in Hs.
    + rewrite lookup_insert_ne by congruence. rewrite IH. split.
      * intros (sym & -> & Hs). exists sym. split; [done |].
        rewrite lookup_insert_ne; [done | congruence].
      * intros (sym & -> & Hs). exists sym. split; [done |].
        rewrite lookup_insert_ne in Hs; [done | congruence].
Qed.

(** C9: after a call of [GetRates] that returns no error, the returned map
    is not nil, and its keys are exactly the rate symbols of the response
    prefixed with EUR when the level is the free tier, whatever base
    currency was passed, and with the base currency passed otherwise;
    each key has the rate of its symbol. *)
Theorem GetRates_keys_prefixed (f : Fixer) (baseCurrency symbols : string) :
  snd (value (GetRates x f baseCurrency symbols)) = None ->
  let prefix := if bool_decide (APIKeyLvl f = fixerAPIFree)
                then "EUR" else baseCurrency in
  let rates := default ∅ (fst (value (GetLatestRates x f baseCurrency symbols))) in
  ∃ m, fst (value (GetRates x f baseCurrency symbols)) = Some m
       ∧ (∀ key, is_Some (m !! key) -> ∃ sym, key = prefix +:+ sym ∧ sym ∈ dom rates)
       ∧ (∀ sym rate, rates !! sym = Some rate -> m !! (prefix +:+ sym) = Some rate).
Proof.
  unfold GetRates, value, bind.
  destruct (GetLatestRates x f baseCurrency symbols) as [[rates err] t] eqn:Hlatest.
  cbn [fst snd]. destruct err as [e |]; cbn; [discriminate |].
  intros _. eexists. split; [reflexivity |]. split.
  - intros key [v Hv]. apply standardise_lookup in Hv as (sym & -> & Hs).
    exists sym. split; [done |]. apply elem_of_dom. eauto.
  - intros sym rate Hs. apply standardise_lookup. eauto.
Qed.

(** C10: below the tier it needs, each of the three gated methods returns
    its zero result with an error and sends no HTTP request. *)
Theorem gated_methods_fail_without_request (f : Fixer) :
  (APIKeyLvl f < fixerAPIBasic ->
     ∀ from to date amount,
       fst (value (ConvertCurrency x f from to date amount)) = 0
       ∧ is_Some (snd (value (ConvertCurrency x f from to date amount)))
       ∧ requests (ConvertCurrency x f from to date amount) = [])
  ∧ (APIKeyLvl f < fixerAPIProfessional ->
     ∀ startDate endDate baseCurrency symbols,
       fst (value (GetTimeSeriesData x f startDate endDate baseCurrency symbols)) = None
       ∧ is_Some (snd (value (GetTimeSeriesData x f startDate endDate baseCurrency symbols)))
       ∧ requests (GetTimeSeriesData x f startDate endDate baseCurrency symbols) = [])
  ∧ (APIKeyLvl f < fixerAPIProfessionalPlus ->
     ∀ startDate endDate baseCurrency symbols,
       fst (value (GetFluctuationData x f startDate endDate baseCurrency symbols)) = None
       ∧ is_Some (snd (value (GetFluctuationData x f startDate endDate baseCurrency symbols)))
       ∧ requests (GetFluctuationData x f startDate endDate baseCurrency symbols) = []).
Proof.
  repeat split;
    unfold ConvertCurrency, GetTimeSeriesData, GetFluctuationData;
    rewrite bool_decide_eq_true_2 by assumption; cbn; eauto.
Qed.

End FixerFacts.

Section FixerExamples.
Import Fixer.

Lemma Setup_error_iff_level_out_of_range_witness :
  fst (value (Setup Samples.extern Samples.free_tier (Samples.settings 5)))
  = Samples.free_tier
  ∧ APIKeyLvl (fst (value (Setup Samples.extern Samples.blank (Samples.settings 4)))) = 4.
Proof.
  split.
  - apply (proj1 (proj2 (Setup_error_iff_level_out_of_range
                           Samples.extern Samples.free_tier (Samples.settings 5)))).
    by eexists.
  - apply (proj2 (proj2 (Setup_error_iff_level_out_of_range
                           Samples.extern Samples.blank (Samples.settings 4)))).
    reflexivity.
Defined.

Example free_tier_rates_are_EUR_based :
  ∃ m, fst (value (GetRates Samples.extern Samples.free_tier "USD" "USD,GBP")) = Some m
       ∧ m !! "EURUSD" = Some 1 ∧ m !! "EURGBP" = Some 2 ∧ m !! "USDGBP" = None.
Proof. eexists. split; [reflexivity |]. by vm_compute. Qed.

Lemma GetRates_keys_prefixed_witness :
  ∃ m, fst (value (GetRates Samples.extern Samples.free_tier "USD" "USD,GBP")) = Some m
       ∧ (∀ key, is_Some (m !! key) ->
            ∃ sym, key = "EUR" +:+ sym
                   ∧ sym ∈ dom (default ∅
                       (fst (value (GetLatestRates Samples.extern Samples.free_tier
                                      "USD" "USD,GBP")))))
       ∧ (∀ sym rate,
            default ∅ (fst (value (GetLatestRates Samples.extern Samples.free_tier
                                     "USD" "USD,GBP"))) !! sym = Some rate ->
            m !! ("EUR" +:+ sym) = Some rate).
Proof.
  apply (GetRates_keys_prefixed Samples.extern Samples.free_tier "USD" "USD,GBP").
  reflexivity.
Defined.

Lemma gated_methods_fail_without_request_witness :
  (fst (value (ConvertCurrency Samples.extern Samples.free_tier "USD" "GBP" "" 5)) = 0
   ∧ is_Some (snd (value (ConvertCurrency Samples.extern Samples.free_tier "USD" "GBP" "" 5)))
   ∧ requests (ConvertCurrency Samples.extern Samples.free_tier "USD" "GBP" "" 5) = [])
  ∧ (fst (value (GetTimeSeriesData Samples.extern Samples.basic_tier "a" "b" "USD" ["GBP"]))
     = None
     ∧ is_Some (snd (value (GetTimeSeriesData Samples.extern Samples.basic_tier
                              "a" "b" "USD" ["GBP"])))
     ∧ requests (GetTimeSeriesData Samples.extern Samples.basic_tier "a" "b" "USD" ["GBP"])
       = [])
  ∧ (fst (value (GetFluctuationData Samples.extern Samples.basic_tier "a" "b" "USD" ["GBP"]))
     = None
     ∧ is_Some (snd (value (GetFluctuationData Samples.extern Samples.basic_tier
                              "a" "b" "USD" ["GBP"])))
     ∧ requests (GetFluctuationData Samples.extern Samples.basic_tier "a" "b" "USD" ["GBP"])
       = []).
Proof.
  split; [| split].
  - apply (proj1 (gated_methods_fail_without_request Samples.extern Samples.free_tier)).
    reflexivity.
  - apply (proj1 (proj2 (gated_methods_fail_without_request
                           Samples.extern Samples.basic_tier))).
    reflexivity.
  - apply (proj2 (proj2 (gated_methods_fail_without_request
                           Samples.extern Samples.basic_tier))).
    reflexivity.
Defined.

(** At a sufficient level the request is sent: the gate is the only thing
    that keeps the three methods from the network. *)
Example basic_tier_convert_sends_request :
  length (requests (ConvertCurrency Samples.extern Samples.basic_tier "USD" "GBP" "" 5)) = 1%nat.
Proof. reflexivity. Qed.

End FixerExamples.

(** * The migration tool *)

Section DbmigrateFacts.
Import Dbmigrate.

Example run_up_ok :
  main (Samples.pg_world Samples.never_fails) (Samples.flags "up")
  = (Next tt,
     [Println "GoCryptoTrader database migration tool";
      Println "(c) GoCryptoTrader";
      Println "";
      CallLoadConfig "config.json" None;
      CallConnect dbPSQL None;
      Println "Connected to: localhost";
      CallGooseRun "up" (sqlDB 1) "postgres" "migrations" "" None]).
Proof. reflexivity. Qed.

(** *** [openDbConnection] *)

(** It always returns; it makes at most one call, to one of the two
    drivers; it returns an error exactly when that call failed or no
    driver matched. *)
Lemma openDbConnection_cases (w : World) (old : option Db) (driver : string) :
  (∃ pkg conn, openDbConnection w old driver
               = (Next (conn, None), [CallConnect pkg None])
               ∧ Connect w pkg = (conn, None))
  ∨ (∃ pkg conn e, openDbConnection w old driver
                   = (Next (conn, Some (connect_failed e)), [CallConnect pkg (Some e)])
                   ∧ Connect w pkg = (conn, Some e))
  ∨ openDbConnection w old driver
    = (Next (old, Some "no connection established"), []).
Proof.
  unfold openDbConnection.
  case_bool_decide.
  - destruct (Connect w dbPSQL) as [conn [e |]] eqn:Hc; cbn.
    + right; left. by exists dbPSQL, conn, e.
    + left. by exists dbPSQL, conn.
  - case_bool_decide.
    + destruct (Connect w dbsqlite3) as [conn [e |]] eqn:Hc; cbn.
      * right; left. by exists dbsqlite3, conn, e.
      * left. by exists dbsqlite3, conn.
    + right; right. reflexivity.
Qed.

(** *** [main], path by path *)

Lemma main_config_error (w : World) (fl : Flags) (conf : Config) (e : error) :
  LoadConfig w (configFile fl) true = (conf, Some e) ->
  main w fl
  = (Exit 1, banner w ++ [CallLoadConfig (configFile fl) (Some e); Println e]).
Proof. intros H. unfold main. rewrite H. reflexivity. Qed.

Lemma main_disabled (w : World) (fl : Flags) (conf : Config) :
  LoadConfig w (configFile fl) true = (conf, None) ->
  Enabled (Database conf) = false ->
  main w fl
  = (Exit 1, banner w ++ [CallLoadConfig (configFile fl) None;
                          Println "Database support is disabled"]).
Proof. intros H Hen. unfold main. rewrite H. cbn. rewrite Hen. reflexivity. Qed.

Lemma main_connect_error (w : World) (fl : Flags) (conf : Config)
    (conn : option Db) (e : error) (t : list Event) :
  LoadConfig w (configFile fl) true = (conf, None) ->
  Enabled (Database conf) = true ->
  openDbConnection w None (Driver (Database conf)) = (Next (conn, Some e), t) ->
  main w fl
  = (Exit 1, banner w ++ [CallLoadConfig (configFile fl) None] ++ t ++ [Println e]).
Proof.
  intros H Hen Ho. unfold main. rewrite H. cbn. rewrite Hen. cbn. rewrite Ho. cbn.
  reflexivity.
Qed.

Lemma main_nil_handle (w : World) (fl : Flags) (conf : Config) (t : list Event) :
  LoadConfig w (configFile fl) true = (conf, None) ->
  Enabled (Database conf) = true ->
  openDbConnection w None (Driver (Database conf)) = (Next (None, None), t) ->
  main w fl
  = (Panic, banner w ++ [CallLoadConfig (configFile fl) None] ++ t
            ++ [connected_line w conf]).
Proof.
  intros H Hen Ho. unfold main, connected_line. rewrite H. cbn. rewrite Hen. cbn.
  rewrite Ho. cbn.
  repeat case_bool_decide; cbn; rewrite ?app_nil_r; reflexivity.
Qed.

Lemma main_default_status (w : World) (fl : Flags) (conf : Config) (db : Db)
    (t : list Event) :
  LoadConfig w (configFile fl) true = (conf, None) ->
  Enabled (Database conf) = true ->
  openDbConnection w None (Driver (Database conf)) = (Next (Some db, None), t) ->
  command fl = "" ->
  main w fl
  = (Next tt,
     banner w ++ [CallLoadConfig (configFile fl) None] ++ t
     ++ [connected_line w conf;
         CallGooseRun "status" (SQL db) (GetSQLDialect w) (migrationDir fl) ""
           (gooseRun w "status" (SQL db) (GetSQLDialect w) (migrationDir fl) "");
         Println "";
         Usage]).
Proof.
  intros H Hen Ho Hc. unfold main, connected_line. rewrite H. cbn. rewrite Hen. cbn.
  rewrite Ho, Hc. cbn.
  repeat case_bool_decide; try congruence; cbn; rewrite ?app_nil_r; reflexivity.
Qed.

Lemma main_delegates (w : World) (fl : Flags) (conf : Config) (db : Db)
    (t : list Event) :
  LoadConfig w (configFile fl) true = (conf, None) ->
  Enabled (Database conf) = true ->
  openDbConnection w None (Driver (Database conf)) = (Next (Some db, None), t) ->
  command fl ≠ "" ->
  let err := gooseRun w (command fl) (SQL db) (GetSQLDialect w)
                      (migrationDir fl) (args fl) in
  main w fl
  = (Next tt,
     banner w ++ [CallLoadConfig (configFile fl) None] ++ t
     ++ [connected_line w conf;
         CallGooseRun (command fl) (SQL db) (GetSQLDialect w) (migrationDir fl)
           (args fl) err]
     ++ match err with Some e => [Println e] | None => [] end).
Proof.
  intros H Hen Ho Hc. unfold main, connected_line. rewrite H. cbn. rewrite Hen. cbn.
  rewrite Ho. cbn. rewrite (bool_decide_eq_false_2 _ Hc).
  destruct (gooseRun w _ _ _ _ _); repeat case_bool_decide; cbn;
    rewrite ?app_nil_r; reflexivity.
Qed.

(** Every run takes one of the five paths. *)
Lemma main_paths (w : World) (fl : Flags) :
  (∃ conf e, LoadConfig w (configFile fl) true = (conf, Some e))
  ∨ (∃ conf, LoadConfig w (configFile fl) true = (conf, None)
             ∧ Enabled (Database conf) = false)
  ∨ (∃ conf conn e t,
        LoadConfig w (configFile fl) true = (conf, None)
        ∧ Enabled (Database conf) = true
        ∧ openDbConnection w None (Driver (Database conf)) = (Next (conn, Some e), t))
  ∨ (∃ conf pkg,
        LoadConfig w (configFile fl) true = (conf, None)
        ∧ Enabled (Database conf) = true
        ∧ openDbConnection w None (Driver (Database conf))
          = (Next (None, None), [CallConnect pkg None]))
  ∨ (∃ conf db pkg,
        LoadConfig w (configFile fl) true = (conf, None)
        ∧ Enabled (Database conf) = true
        ∧ openDbConnection w None (Driver (Database conf))
          = (Next (Some db, None), [CallConnect pkg None])).
Proof.
  destruct (LoadConfig w (configFile fl) true) as [conf [e |]] eqn:Hl.
  { left. eauto. }
  destruct (Enabled (Database conf)) eqn:Hen.
  2: { right; left. eauto. }
  destruct (openDbConnection_cases w None (Driver (Database conf)))
    as [(pkg & conn & Ho & _) | [(pkg & conn & e & Ho & _) | Ho]].
  - destruct conn as [db |].
    + do 4 right. exists conf, db, pkg. eauto.
    + do 3 right; left. exists conf, pkg. eauto.
  - do 2 right; left. exists conf, conn, (connect_failed e), [CallConnect pkg (Some e)]. eauto.
  - do 2 right; left. exists conf, None, "no connection established", []. eauto.
Qed.

Lemma started_trace (w : World) (fl : Flags) (conf : Config) (db : Db) :
  started w fl conf db ->
  ∃ pkg, openDbConnection w None (Driver (Database conf))
         = (Next (Some db, None), [CallConnect pkg None])
         ∧ Connect w pkg = (Some db, None).
Proof.
  intros (_ & _ & Ho).
  destruct (openDbConnection_cases w None (Driver (Database conf)))
    as [(pkg & conn & Hc & Hr) | [(pkg & conn & e & Hc & _) | Hc]];
    rewrite Hc in Ho; cbn in Ho; try discriminate.
  injection Ho as ->. eauto.
Qed.

Lemma mentions_self (e : error) : mentions e e.
Proof.
  exists "", "". change (e = e +:+ "").
  induction e as [| c e IH]; [done |].
  change (String c e = String c (e +:+ "")). by f_equal.
Qed.

Lemma mentions_connect_failed (e : error) : mentions e (connect_failed e).
Proof. unfold connect_failed. by eexists _, _. Qed.

(** The exit status never depends on what [goose.Run] returns, nor does
    anything shown when the command is empty. *)
Lemma exit_status_ignores_goose (w : World) (fl : Flags)
    (g : string -> SQLHandle -> string -> string -> string -> option error) :
  exit_status (main (with_goose g w) fl) = exit_status (main w fl).
Proof.
  destruct (main_paths w fl)
    as [(conf & e & Hl) | [(conf & Hl & Hen) | [(conf & conn & e & t & Hl & Hen & Ho)
       | [(conf & pkg & Hl & Hen & Ho) | (conf & db & pkg & Hl & Hen & Ho)]]]].
  - by rewrite (main_config_error w fl conf e),
               (main_config_error (with_goose g w) fl conf e).
  - by rewrite (main_disabled w fl conf), (main_disabled (with_goose g w) fl conf).
  - by rewrite (main_connect_error w fl conf conn e t),
               (main_connect_error (with_goose g w) fl conf conn e t).
  - by rewrite (main_nil_handle w fl conf [CallConnect pkg None]),
               (main_nil_handle (with_goose g w) fl conf [CallConnect pkg None]).
  - destruct (decide (command fl = "")) as [Hc | Hc].
    + by rewrite (main_default_status w fl conf db [CallConnect pkg None]),
                 (main_default_status (with_goose g w) fl conf db [CallConnect pkg None]).
    + by rewrite (main_delegates w fl conf db [CallConnect pkg None]),
                 (main_delegates (with_goose g w) fl conf db [CallConnect pkg None]).
Qed.

(** C1: a run of [up] whose migration fails.  [goose.Run] returns an
    error, [main] prints it and returns, and the process ends with status
    0, the status of a run that succeeded; the claim asks for a status
    other than 0. *)
Theorem failed_migration_exits_zero :
  let failed := main (Samples.pg_world Samples.always_fails) (Samples.flags "up") in
  let passed := main (Samples.pg_world Samples.never_fails) (Samples.flags "up") in
  filter ledger_access (trace failed)
  = [CallGooseRun "up" (sqlDB 1) "postgres" "migrations" "" (Some "migration failed")]
  ∧ last (trace failed) = Some (Println "migration failed")
  ∧ exit_status failed = 0
  ∧ exit_status passed = 0.
Proof. cbv zeta. repeat split. Qed.

Lemma nothing_mentioned_in_empty_line (e : error) : e ≠ "" -> ¬ mentions e "".
Proof.
  intros He (a & b & H). destruct a; [| discriminate].
  destruct e; [done | discriminate].
Qed.

Ltac by_main_path w fl :=
  destruct (main_paths w fl)
    as [(?conf & ?e & ?Hl)
       | [(?conf & ?Hl & ?Hen)
       | [(?conf & ?conn & ?e & ?t & ?Hl & ?Hen & ?Ho)
       | [(?conf & ?pkg & ?Hl & ?Hen & ?Ho)
       | (?conf & ?db & ?pkg & ?Hl & ?Hen & ?Ho)]]]].

Ltac show_trace := unfold output, trace, banner, connected_line; cbn.

(** Startup errors are always printed. *)
Lemma startup_errors_surfaced (w : World) (fl : Flags) :
  surfaced (filter (fun e => negb (ledger_access e)) (trace (main w fl))).
Proof.
  by_main_path w fl.
  - rewrite (main_config_error w fl conf e) by done. show_trace.
    repeat split; try discriminate.
    intros e' [= <-]. exists e. split; [by left | apply mentions_self].
  - rewrite (main_disabled w fl conf) by done. show_trace.
    repeat split; discriminate.
  - rewrite (main_connect_error w fl conf conn e t) by done.
    destruct (openDbConnection_cases w None (Driver (Database conf)))
      as [(pkg & c' & Hc' & _) | [(pkg & c' & e' & Hc' & _) | Hc']];
      rewrite Hc' in Ho; simplify_eq; show_trace.
    + repeat split; try discriminate.
      intros e'' [= <-]. eexists. split; [by left | apply mentions_connect_failed].
    + repeat split; discriminate.
  - rewrite (main_nil_handle w fl conf [CallConnect pkg None]) by done. show_trace.
    case_bool_decide; cbn; repeat split; discriminate.
  - destruct (decide (command fl = "")) as [Hc | Hc].
    + rewrite (main_default_status w fl conf db [CallConnect pkg None]) by done.
      show_trace. case_bool_decide; cbn; repeat split; discriminate.
    + rewrite (main_delegates w fl conf db [CallConnect pkg None]) by done.
      show_trace.
      destruct (gooseRun w _ _ _ _ _) as [e |]; case_bool_decide; cbn;
        repeat split; discriminate.
Qed.

(** With a command given, the error of [goose.Run] is printed as well. *)
Lemma command_errors_surfaced (w : World) (fl : Flags) :
  command fl ≠ "" -> surfaced (trace (main w fl)).
Proof.
  intros Hc. by_main_path w fl.
  - rewrite (main_config_error w fl conf e) by done. show_trace.
    repeat split; try discriminate.
    intros e' [= <-]. exists e. split; [by left | apply mentions_self].
  - rewrite (main_disabled w fl conf) by done. show_trace.
    repeat split; discriminate.
  - rewrite (main_connect_error w fl conf conn e t) by done.
    destruct (openDbConnection_cases w None (Driver (Database conf)))
      as [(pkg & c' & Hc' & _) | [(pkg & c' & e' & Hc' & _) | Hc']];
      rewrite Hc' in Ho; simplify_eq; show_trace.
    + repeat split; try discriminate.
      intros e'' [= <-]. eexists. split; [by left | apply mentions_connect_failed].
    + repeat split; discriminate.
  - rewrite (main_nil_handle w fl conf [CallConnect pkg None]) by done. show_trace.
    case_bool_decide; cbn; repeat split; discriminate.
  - rewrite (main_delegates w fl conf db [CallConnect pkg None]) by done.
    show_trace.
    destruct (gooseRun w _ _ _ _ _) as [e |]; case_bool_decide; cbn;
      repeat split; try discriminate.
    all: intros e' [= <-]; exists e; (split; [by left | apply mentions_self]).
Qed.

(** With no command given, what is shown does not depend on what the
    default [status] run returns. *)
Lemma default_status_result_unseen (w : World) (fl : Flags)
    (g : string -> SQLHandle -> string -> string -> string -> option error) :
  command fl = "" ->
  output (main (with_goose g w) fl) = output (main w fl).
Proof.
  intros Hc. by_main_path w fl.
  - by rewrite (main_config_error w fl conf e),
               (main_config_error (with_goose g w) fl conf e).
  - by rewrite (main_disabled w fl conf), (main_disabled (with_goose g w) fl conf).
  - by rewrite (main_connect_error w fl conf conn e t),
               (main_connect_error (with_goose g w) fl conf conn e t).
  - by rewrite (main_nil_handle w fl conf [CallConnect pkg None]),
               (main_nil_handle (with_goose g w) fl conf [CallConnect pkg None]).
  - rewrite (main_default_status w fl conf db [CallConnect pkg None]),
            (main_default_status (with_goose g w) fl conf db [CallConnect pkg None])
      by done.
    show_trace. by repeat case_bool_decide.
Qed.




(** C3, as stated, fails: a command outside the list is not turned away;
    the database is connected to and the command is run by [goose.Run]. *)
Lemma unlisted_command_reaches_database :
  ("bogus" ∉ listed_commands)
  ∧ filter db_interaction
      (trace (main (Samples.pg_world Samples.never_fails) (Samples.flags "bogus")))
    = [CallConnect dbPSQL None;
       CallGooseRun "bogus" (sqlDB 1) "postgres" "migrations" "" None]
  ∧ ¬ ("bogus" ∉ listed_commands ->
       filter db_interaction
         (trace (main (Samples.pg_world Samples.never_fails) (Samples.flags "bogus")))
       = []).
Proof.
  assert (Hout : "bogus" ∉ listed_commands).
  { unfold listed_commands. rewrite !elem_of_cons, elem_of_nil.
    intros H. repeat destruct H as [H | H]; discriminate || done. }
  split; [exact Hout |]. split; [reflexivity |].
  intros H. specialize (H Hout). discriminate.
Qed.

(** C3, amended: the tool checks the command against no list.  Whatever
    the command string, once the configuration is loaded, database
    support is on and the connection is open, the tool has connected to
    the database and calls [goose.Run] with that very string, or with
    status when the string is empty; whether the string is a command is
    for the library to say. *)
Theorem every_command_reaches_goose (w : World) (fl : Flags) (conf : Config) (db : Db) :
  started w fl conf db ->
  ∃ pkg,
    filter db_interaction (trace (main w fl))
    = [CallConnect pkg None;
       if bool_decide (command fl = "")
       then CallGooseRun "status" (SQL db) (GetSQLDialect w) (migrationDir fl) ""
              (gooseRun w "status" (SQL db) (GetSQLDialect w) (migrationDir fl) "")
       else CallGooseRun (command fl) (SQL db) (GetSQLDialect w) (migrationDir fl)
              (args fl)
              (gooseRun w (command fl) (SQL db) (GetSQLDialect w) (migrationDir fl)
                 (args fl))].
Proof.
  intros Hs. destruct (started_trace w fl conf db Hs) as (pkg & Ho & _).
  destruct Hs as (Hl & Hen & _). exists pkg.
  case_bool_decide as Hc.
  - rewrite (main_default_status w fl conf db [CallConnect pkg None]) by done.
    show_trace. by case_bool_decide.
  - rewrite (main_delegates w fl conf db [CallConnect pkg None]) by done.
    show_trace. destruct (gooseRun w _ _ _ _ _); by case_bool_decide.
Qed.

Lemma sample_started (r : string -> option error) (c : string) :
  started (Samples.pg_world r) (Samples.flags c) Samples.pg_config Samples.pg_db.
Proof. repeat split. Defined.

Lemma every_command_reaches_goose_witness :
  ∃ pkg,
    filter db_interaction
      (trace (main (Samples.pg_world Samples.never_fails) (Samples.flags "bogus")))
    = [CallConnect pkg None;
       CallGooseRun "bogus" (sqlDB 1) "postgres" "migrations" "" None].
Proof.
  exact (every_command_reaches_goose
           (Samples.pg_world Samples.never_fails) (Samples.flags "bogus")
           Samples.pg_config Samples.pg_db
           (sample_started Samples.never_fails "bogus")).
Defined.

(** C4: when the configuration does not load, or loads with database
    support off, the error is the last thing printed, the status is 1,
    and neither a connection nor [goose.Run] was called; when the
    connection cannot be opened, the error is the last thing printed, the
    status is 1, and [goose.Run], the only way to the ledger, was not
    called. *)
Theorem startup_failure_exits_before_database (w : World) (fl : Flags)
    (conf : Config) (cerr : option error) :
  LoadConfig w (configFile fl) true = (conf, cerr) ->
  ((∀ e, cerr = Some e ->
         last (trace (main w fl)) = Some (Println e)
         ∧ exit_status (main w fl) = 1
         ∧ filter db_interaction (trace (main w fl)) = [])
   ∧ (cerr = None -> Enabled (Database conf) = false ->
         last (trace (main w fl)) = Some (Println "Database support is disabled")
         ∧ exit_status (main w fl) = 1
         ∧ filter db_interaction (trace (main w fl)) = [])
   ∧ (cerr = None -> Enabled (Database conf) = true ->
      ∀ conn e t,
         openDbConnection w None (Driver (Database conf)) = (Next (conn, Some e), t) ->
         last (trace (main w fl)) = Some (Println e)
         ∧ exit_status (main w fl) = 1
         ∧ filter ledger_access (trace (main w fl)) = [])).
Proof.
  intros Hl. repeat split.
  1-3: subst cerr; rewrite (main_config_error w fl conf e) by done; reflexivity.
  1-3: subst cerr; rewrite (main_disabled w fl conf) by done; reflexivity.
  all: subst cerr; rewrite (main_connect_error w fl conf conn e t) by done.
  - unfold trace; cbn. by rewrite !app_comm_cons, last_snoc.
  - reflexivity.
  - destruct (openDbConnection_cases w None (Driver (Database conf)))
      as [(pkg & c' & Hc' & _) | [(pkg & c' & e' & Hc' & _) | Hc']];
      rewrite Hc' in *; simplify_eq; reflexivity.
Qed.

Lemma startup_failure_exits_before_database_witness :
  (last (trace (main Samples.unreadable_world (Samples.flags "up")))
   = Some (Println "open config.json: no such file")
   ∧ exit_status (main Samples.unreadable_world (Samples.flags "up")) = 1
   ∧ filter db_interaction (trace (main Samples.unreadable_world (Samples.flags "up"))) = [])
  ∧ (last (trace (main Samples.refusing_world (Samples.flags "up")))
     = Some (Println (connect_failed "connection refused"))
     ∧ exit_status (main Samples.refusing_world (Samples.flags "up")) = 1
     ∧ filter ledger_access (trace (main Samples.refusing_world (Samples.flags "up"))) = []).
Proof.
  split.
  - apply (proj1 (startup_failure_exits_before_database
                    Samples.unreadable_world (Samples.flags "up")
                    zeroConfig (Some "open config.json: no such file") eq_refl)).
    reflexivity.
  - apply (proj2 (proj2 (startup_failure_exits_before_database
                           Samples.refusing_world (Samples.flags "up")
                           Samples.pg_config None eq_refl))
             eq_refl eq_refl None _ [CallConnect dbPSQL (Some "connection refused")]).
    reflexivity.
Defined.



End DbmigrateFacts.

(** * The migration engine *)

Section EngineFacts.
Import Engine.
Context {Schema : Type}.
Variable execScript : string -> Schema -> Schema * bool.
Variable dialect : Dialect.

Local Abbreviation exec_step := (Engine.exec_step execScript dialect).
Local Abbreviation run_plan := (Engine.run_plan execScript dialect).
Local Abbreviation under_lock := (Engine.under_lock execScript dialect).
Local Abbreviation run := (Engine.run execScript dialect).
Local Abbreviation runner_step := (Engine.runner_step execScript dialect).
Local Abbreviation reachable := (Engine.reachable execScript dialect).

(** *** One step *)

Lemma exec_step_history (now : Z) (st : State) (s : Step) :
  history (fst (exec_step now st s))
  = history st ++ [mkExecEvent (version (fst s)) (snd s) (snd (exec_step now st s))].
Proof.
  unfold Engine.exec_step.
  destruct (execScript (script_of s) (schema st)) as [sch ok].
  destruct ok; [destruct (record_step now s (ledger st)) |]; reflexivity.
Qed.

Lemma exec_step_locked (now : Z) (st : State) (s : Step) :
  locked (fst (exec_step now st s)) = locked st.
Proof.
  unfold Engine.exec_step.
  destruct (execScript (script_of s) (schema st)) as [sch ok].
  destruct ok; [destruct (record_step now s (ledger st)) |]; reflexivity.
Qed.

(** A step that commits moves the ledger by its own version; a step that
    fails leaves the ledger as it was. *)
Lemma exec_step_ledger (now : Z) (st : State) (s : Step) :
  match snd (exec_step now st s), snd s with
  | StepCommitted, Up =>
      ledger st !! version (fst s) = None
      ∧ ledger (fst (exec_step now st s)) = <[version (fst s) := now]> (ledger st)
  | StepCommitted, Down =>
      is_Some (ledger st !! version (fst s))
      ∧ ledger (fst (exec_step now st s)) = delete (version (fst s)) (ledger st)
  | _, _ => ledger (fst (exec_step now st s)) = ledger st
  end.
Proof.
  unfold Engine.exec_step, record_step, RecordApplied, RecordRolledBack.
  destruct (execScript (script_of s) (schema st)) as [sch ok].
  destruct s as [m []]; destruct ok; cbn;
    destruct (ledger st !! version m) eqn:Hv; cbn; eauto.
Qed.

(** *** Replaying a history *)

Lemma replay_snoc (h : list ExecEvent) (e : ExecEvent) :
  replay (h ++ [e]) = replay_event (replay h) e.
Proof. unfold replay. by rewrite foldl_app. Qed.

Lemma last_committed_snoc (v : Z) (h : list ExecEvent) (e : ExecEvent) :
  last_committed v (h ++ [e])
  = if is_committed e && bool_decide (evVersion e = v)
    then Some (evDir e) else last_committed v h.
Proof. unfold last_committed. by rewrite foldl_app. Qed.

Lemma replay_last_committed (v : Z) (h : list ExecEvent) :
  v ∈ replay h ↔ last_committed v h = Some Up.
Proof.
  induction h as [| e h IH] using rev_ind.
  - cbn. split; [intros H; by apply not_elem_of_empty in H | discriminate].
  - rewrite replay_snoc, last_committed_snoc.
    unfold replay_event, is_committed.
    destruct (evResult e); cbn; [| done | done].
    case_bool_decide as Hv; destruct (evDir e);
      rewrite ?elem_of_union, ?elem_of_difference, ?elem_of_singleton, IH.
    + split; [done | by left].
    + split; [intros [_ Hne]; by destruct Hne | discriminate].
    + split; [intros [-> | H]; [by destruct Hv | done] | by right].
    + split; [by intros [H _] | intros H; split; [done | congruence]].
Qed.

Lemma last_committed_elem (v : Z) (d : Direction) (h : list ExecEvent) :
  last_committed v h = Some d -> mkExecEvent v d StepCommitted ∈ h.
Proof.
  induction h as [| e h IH] using rev_ind; [discriminate |].
  rewrite last_committed_snoc, elem_of_app, list_elem_of_singleton.
  unfold is_committed. destruct e as [v' d' r]; cbn.
  destruct r; cbn; eauto.
  case_bool_decide; [intros [= ->]; subst; by right | eauto].
Qed.

Lemma exec_step_exact (now : Z) (st : State) (s : Step) :
  ledger_exact st -> ledger_exact (fst (exec_step now st s)).
Proof.
  unfold ledger_exact, GetApplied. intros Hex.
  rewrite exec_step_history, replay_snoc, <- Hex.
  pose proof (exec_step_ledger now st s) as Hl.
  unfold replay_event; cbn.
  destruct (snd (exec_step now st s)); [destruct (snd s) | |].
  - destruct Hl as [_ ->]. by rewrite dom_insert_L.
  - destruct Hl as [_ ->]. by rewrite dom_delete_L.
  - by rewrite Hl.
  - by rewrite Hl.
Qed.

Lemma reachable_exact (r : Runner) : reachable r -> ledger_exact (snd r).
Proof.
  induction 1 as [s0 | inv [ph st] Hr IH | ph st Hr IH]; cbn in *.
  - unfold ledger_exact, GetApplied. cbn. by rewrite dom_empty_L.
  - destruct ph as [| | [| s rest] last | |]; cbn.
    + destruct (is_create (cmd inv)); [done |]. by destruct (locked st).
    + repeat case_match; by simplify_eq.
    + done.
    + pose proof (exec_step_exact (now inv) st s IH) as Hex.
      destruct (exec_step (now inv) st s) as [st' []]; done.
    + done.
    + done.
  - done.
Qed.

(** *** A plan stops at its first failing step *)

Lemma run_plan_stops (now : Z) (p : Plan) (last : option Z) (st : State) :
  (snd (run_plan now p last st) = Done
   ∧ history (fst (run_plan now p last st)) = history st ++ committed_events p)
  ∨ (∃ pre s post r l,
        p = pre ++ s :: post
        ∧ r ≠ StepCommitted
        ∧ snd (run_plan now p last st) = Problem (ExecutionError (version (fst s)) l)
        ∧ history (fst (run_plan now p last st))
          = history st ++ committed_events pre
            ++ [mkExecEvent (version (fst s)) (snd s) r]).
Proof.
  revert last st. induction p as [| s rest IH]; intros last st.
  - left. cbn. by rewrite app_nil_r.
  - cbn [Engine.run_plan].
    pose proof (exec_step_history now st s) as Hh.
    destruct (exec_step now st s) as [st' r] eqn:Hstep. cbn [fst snd] in Hh.
    destruct r.
    + destruct (IH (Some (version (fst s))) st')
        as [[Hd Hhist] | (pre & s' & post & r & l & -> & Hr & Ho & Hhist)].
      * left. split; [done |]. rewrite Hhist, Hh, <- app_assoc. done.
      * right. exists (s :: pre), s', post, r, l.
        repeat split; try done. rewrite Hhist, Hh, <- app_assoc. done.
    + right. exists [], s, rest, StepScriptFailed, last. by repeat split.
    + right. exists [], s, rest, (StepLedgerFailed e), last. by repeat split.
Qed.

Lemma run_plan_locked (now : Z) (p : Plan) (last : option Z) (st : State) :
  locked (fst (run_plan now p last st)) = locked st.
Proof.
  revert last st. induction p as [| s rest IH]; intros last st; [done |].
  cbn [Engine.run_plan].
  pose proof (exec_step_locked now st s) as Hl.
  destruct (exec_step now st s) as [st' []]; cbn [fst] in *; [| done | done].
  by rewrite IH.
Qed.

(** *** The run as a walk of the state machine *)

Lemma executing_reaches_idle (inv : Invocation) (p : Plan) (last : option Z)
    (st : State) :
  reachable (Executing p last, st) ->
  reachable (Idle, set_locked false (fst (run_plan (now inv) p last st))).
Proof.
  revert last st. induction p as [| s rest IH]; intros last st Hr.
  - apply (reach_step _ _ inv) in Hr. cbn in Hr.
    by apply (reach_step _ _ inv) in Hr.
  - apply (reach_step _ _ inv) in Hr. cbn in Hr. cbn [Engine.run_plan].
    destruct (exec_step (now inv) st s) as [st' []]; cbn [fst].
    + by apply IH.
    + by apply (reach_step _ _ inv) in Hr.
    + by apply (reach_step _ _ inv) in Hr.
Qed.

Lemma under_lock_reaches_idle (inv : Invocation) (st : State) :
  reachable (LockAcquired, st) ->
  reachable (Idle, set_locked false (fst (under_lock inv st))).
Proof.
  intros Hr. apply (reach_step _ _ inv) in Hr.
  unfold Engine.runner_step in Hr. unfold Engine.under_lock.
  destruct (Load _ _ _) as [e | ms]; [exact (reach_step _ _ inv _ Hr) |].
  destruct (cmd inv); cbv beta iota in Hr |- *.
  1: exact (reach_step _ _ inv _ Hr).
  all: destruct (plan _ _ _) as [e | p];
       [exact (reach_step _ _ inv _ Hr) | by apply executing_reaches_idle].
Qed.

(** Whatever a whole run returns is a state the machine reaches. *)
Lemma run_reachable (inv : Invocation) (st : State) :
  reachable (Idle, st) -> reachable (Idle, fst (run inv st)).
Proof.
  intros Hr. unfold Engine.run.
  assert (Hgo : locked st = false -> is_create (cmd inv) = false ->
                reachable (Idle, set_locked false
                                   (fst (under_lock inv (set_locked true st))))).
  { intros Hlk Hc. apply under_lock_reaches_idle.
    apply (reach_step _ _ inv) in Hr. cbn in Hr. by rewrite Hc, Hlk in Hr. }
  destruct (cmd inv); try done;
    (destruct (locked st); [done |]);
    specialize (Hgo eq_refl eq_refl);
    by destruct (under_lock inv (set_locked true st)).
Qed.


(** *** Running [up] again *)

Lemma exec_step_up_done (now : Z) (st : State) (m : Migration) :
  snd (exec_step now st (m, Up)) = StepCommitted ->
  GetApplied (ledger (fst (exec_step now st (m, Up))))
  = {[version m]} ∪ GetApplied (ledger st).
Proof.
  intros Hc. pose proof (exec_step_ledger now st (m, Up)) as Hl.
  rewrite Hc in Hl. cbn in Hl. destruct Hl as [_ ->].
  unfold GetApplied. by rewrite dom_insert_L.
Qed.

(** When every step of an up plan commits, the ledger gains exactly the
    versions of the plan. *)
Lemma run_plan_done_ups (now : Z) (ms : list Migration) (last : option Z)
    (st : State) :
  snd (run_plan now (ups ms) last st) = Done ->
  GetApplied (ledger (fst (run_plan now (ups ms) last st)))
  = GetApplied (ledger st) ∪ list_to_set (version <$> ms).
Proof.
  revert last st. induction ms as [| m ms IH]; intros last st Hd.
  - cbn. unfold GetApplied. by rewrite (right_id_L ∅ (∪)).
  - cbn [ups fmap list_fmap Engine.run_plan] in *.
    pose proof (exec_step_up_done now st m) as Hstep.
    destruct (exec_step now st (m, Up)) as [st' res]. cbn [fst snd] in *.
    destruct res; [| discriminate | discriminate].
    change ((fun m0 => (m0, Up)) <$> ms) with (ups ms) in *.
    rewrite (IH _ _ Hd), (Hstep eq_refl). cbn [list_to_set].
    by rewrite (comm_L (∪) {[version m]}), <- (assoc_L (∪)).
Qed.

Lemma pending_none_left (ms : list Migration) (applied : gset Z) :
  pending ms (applied ∪ list_to_set (version <$> pending ms applied)) = [].
Proof.
  unfold pending.
  assert (Hall : ∀ m, m ∈ ms ->
            version m ∈ applied ∪ list_to_set
                          (version <$> filter (fun m => version m ∉ applied) ms)).
  { intros m Hm. apply elem_of_union.
    destruct (decide (version m ∈ applied)) as [Hin | Hout]; [by left | right].
    apply elem_of_list_to_set, list_elem_of_fmap_2, list_elem_of_filter. done. }
  revert Hall.
  generalize (applied ∪ list_to_set
                (version <$> filter (fun m => version m ∉ applied) ms)).
  intros done_set Hall. induction ms as [| m ms IH]; [done |].
  rewrite filter_cons. case_decide as Hm.
  - destruct Hm. apply Hall. by left.
  - apply IH. intros m' Hm'. apply Hall. by right.
Qed.

Lemma ups_nil (ms : list Migration) : ups ms = [] -> ms = [].
Proof. by destruct ms. Qed.

(** The registry fails with a registry error only. *)
Lemma Load_error (permit : bool) (c : Command) (srcs : list Source) (e : EngineError) :
  Load permit c srcs = inl e -> e ≠ NothingToDoError.
Proof.
  unfold Load. repeat case_match; intros [= <-]; discriminate.
Qed.

(** An [up] that ends without a failure leaves nothing pending. *)
Lemma up_done_nothing_pending (inv : Invocation) (st : State) :
  cmd inv = CmdUp ->
  snd (run inv st) = Done ∨ snd (run inv st) = Problem NothingToDoError ->
  locked (fst (run inv st)) = false
  ∧ ∃ ms, Load (permitIrreversible inv) CmdUp (sources inv) = inr ms
          ∧ pending ms (GetApplied (ledger (fst (run inv st)))) = [].
Proof.
  intros Hcmd. unfold Engine.run, Engine.under_lock. rewrite Hcmd.
  destruct (locked st) eqn:Hlk; [intros [|]; discriminate |].
  destruct (Load _ _ _) as [e | ms] eqn:Hload.
  { cbn. intros [| [= He]]; [discriminate |]. by apply Load_error in Hload. }
  unfold plan. cbn [compute_plan].
  destruct (ups (pending ms (GetApplied (ledger (set_locked true st))))) as [| s p] eqn:Hp.
  - intros _. split; [done |]. exists ms. split; [done |]. by apply ups_nil in Hp.
  - rewrite <- Hp.
    pose proof (run_plan_done_ups (now inv)
                  (pending ms (GetApplied (ledger (set_locked true st))))
                  None (set_locked true st)) as Hdone.
    pose proof (run_plan_stops (now inv)
                  (ups (pending ms (GetApplied (ledger (set_locked true st)))))
                  None (set_locked true st)) as Hstop.
    destruct (run_plan _ _ _ _) as [st' o]. cbn [fst snd] in *.
    intros [-> | ->].
    + split; [done |]. exists ms. split; [done |].
      cbn [ledger set_locked fst]. rewrite (Hdone eq_refl). apply pending_none_left.
    + destruct Hstop as [[[=] _] | (? & ? & ? & ? & ? & _ & _ & [=] & _)].
Qed.

(** C7, amended: when a run of [up] ends without a failed step, a second
    run of [up] over the same sources computes the empty plan, reports
    that there is nothing to do, and returns the state, ledger included,
    that the first run left. *)
Theorem second_up_has_nothing_to_do (inv inv2 : Invocation) (st : State) :
  cmd inv = CmdUp ->
  cmd inv2 = CmdUp ->
  sources inv2 = sources inv ->
  permitIrreversible inv2 = permitIrreversible inv ->
  snd (run inv st) = Done ∨ snd (run inv st) = Problem NothingToDoError ->
  (∃ ms, Load (permitIrreversible inv2) (cmd inv2) (sources inv2) = inr ms
         ∧ compute_plan ms (GetApplied (ledger (fst (run inv st)))) (cmd inv2) = inr [])
  ∧ run inv2 (fst (run inv st)) = (fst (run inv st), Problem NothingToDoError).
Proof.
  intros Hc1 Hc2 Hsrc Hperm Hok.
  destruct (up_done_nothing_pending inv st Hc1 Hok) as (Hlk & ms & Hload & Hpend).
  remember (fst (run inv st)) as st1 eqn:E. clear E Hok.
  rewrite Hc2, Hsrc, Hperm. split.
  - exists ms. split; [done |]. cbn. by rewrite Hpend.
  - unfold Engine.run, Engine.under_lock. rewrite Hc2, Hlk, Hsrc, Hperm, Hload.
    unfold plan. cbn [compute_plan set_locked ledger]. rewrite Hpend. cbn.
    f_equal. destruct st1 as [l sc lk h]. cbn in *. by subst lk.
Qed.

End EngineFacts.

Section EngineExamples.
Import Engine.

Example up_stops_at_failing_version :
  let r := run Samples.scripted Samples.postgres (Samples.up_at 100) Samples.fresh in
  snd r = Problem (ExecutionError 3 (Some 2))
  ∧ ledger (fst r) = {[ 1 := 100; 2 := 100 ]}
  ∧ schema (fst r) = ["U1"; "U2"]
  ∧ locked (fst r) = false
  ∧ history (fst r) = [mkExecEvent 1 Up StepCommitted;
                       mkExecEvent 2 Up StepCommitted;
                       mkExecEvent 3 Up StepScriptFailed].
Proof. cbv zeta. repeat split; by vm_compute. Qed.

Example mid_run_is :
  fst Samples.mid_run
  = Executing [(mkMigration 3 "add_idx" "FAIL" "D3", Up)] (Some 2)
  ∧ ledger (snd Samples.mid_run) = {[ 1 := 100; 2 := 100 ]}.
Proof. split; by vm_compute. Qed.


(** C7, as stated, fails: version 3 fails in the first run of [up]; the
    second run starts from the ledger {1, 2} and its plan is the step for
    version 3, not the empty plan. *)
Lemma failed_up_leaves_work_for_second_run :
  snd (run Samples.scripted Samples.postgres (Samples.up_at 100) Samples.fresh)
  = Problem (ExecutionError 3 (Some 2))
  ∧ Load false CmdUp Samples.three_sources = inr [Samples.m1; Samples.m2; Samples.m3]
  ∧ compute_plan [Samples.m1; Samples.m2; Samples.m3]
      (GetApplied (ledger (fst (run Samples.scripted Samples.postgres
                                  (Samples.up_at 100) Samples.fresh))))
      CmdUp
    = inr [(Samples.m3, Up)]
  ∧ ¬ (ledger (fst (run Samples.scripted Samples.postgres (Samples.up_at 200)
                      (fst (run Samples.scripted Samples.postgres
                              (Samples.up_at 100) Samples.fresh))))
       = ledger (fst (run Samples.scripted Samples.postgres
                        (Samples.up_at 100) Samples.fresh))
       ∧ compute_plan [Samples.m1; Samples.m2; Samples.m3]
           (GetApplied (ledger (fst (run Samples.scripted Samples.postgres
                                       (Samples.up_at 100) Samples.fresh))))
           CmdUp
         = inr []).
Proof.
  split; [by vm_compute |]. split; [by vm_compute |]. split; [by vm_compute |].
  intros [_ H]. vm_compute in H. discriminate.
Qed.

Lemma second_up_has_nothing_to_do_witness :
  run Samples.scripted Samples.postgres (Samples.up_two_at 200)
    (fst (run Samples.scripted Samples.postgres (Samples.up_two_at 100) Samples.fresh))
  = (fst (run Samples.scripted Samples.postgres (Samples.up_two_at 100) Samples.fresh),
     Problem NothingToDoError).
Proof.
  apply (proj2 (second_up_has_nothing_to_do Samples.scripted Samples.postgres
                  (Samples.up_two_at 100) (Samples.up_two_at 200) Samples.fresh
                  eq_refl eq_refl eq_refl eq_refl
                  (or_introl (eq_refl Done)))).
Defined.

(** The scenario of the specification: [up] applies both versions in
    order, and each [down] takes the most recent one back. *)
Example up_then_down_twice :
  let down t := mkInvocation Samples.two_sources CmdDown t false in
  let s1 := fst (run Samples.scripted Samples.postgres (Samples.up_two_at 100) Samples.fresh) in
  let s2 := fst (run Samples.scripted Samples.postgres (down 200) s1) in
  let s3 := fst (run Samples.scripted Samples.postgres (down 300) s2) in
  GetApplied (ledger s1) = {[1; 2]}
  ∧ GetApplied (ledger s2) = {[1]}
  ∧ GetApplied (ledger s3) = ∅
  ∧ schema s3 = ["U1"; "U2"; "D2"; "D1"].
Proof. cbv zeta. repeat split; by vm_compute. Qed.

End EngineExamples.

(** * More on the Fixer provider *)

Section FixerMore.
Import Fixer.
Variable x : Extern.

Lemma SendOpenHTTPRequest_sends (f : Fixer) (endpoint : string) (v : Values)
    (k : ResultKind) (zero : ResultT k) :
  ∃ r, SendOpenHTTPRequest x f endpoint v k zero = (SendPayload x k r zero, [EvHTTP r])
       ∧ request_for x f endpoint r.
Proof.
  unfold SendOpenHTTPRequest, request_for.
  case_bool_decide as Hfree; cbn.
  - eexists. split; [reflexivity |]. cbn. repeat split.
    exists (Values_Set "access_key" (APIKey f) v).
    unfold Values_Set. by rewrite lookup_insert_eq.
  - eexists. split; [reflexivity |]. cbn. repeat split.
    exists (Values_Set "access_key" (APIKey f) v).
    unfold Values_Set. by rewrite lookup_insert_eq.
Qed.

(** The nil-tolerant reading and the first one agree on values that are
    not nil. *)
Lemma SendOpenHTTPRequest_nilable_agrees (f : Fixer) (endpoint : string)
    (v : Values) (k : ResultKind) (zero : ResultT k) :
  SendOpenHTTPRequest_nilable x (SendPayload x k) f endpoint (Some v) zero
  = (Returned (value (SendOpenHTTPRequest x f endpoint v k zero)),
     events (SendOpenHTTPRequest x f endpoint v k zero)).
Proof.
  unfold SendOpenHTTPRequest_nilable, SendOpenHTTPRequest. cbn.
  by case_bool_decide.
Qed.

Lemma reply_error_none (t : option error) (ok : bool) (e : RespError) :
  reply_error t ok e = None ↔ t = None ∧ ok = true.
Proof. destruct t, ok; cbn; split; (discriminate || tauto || by intros [? ?]). Qed.

(** *** Each method as one request and what it makes of the reply *)

Lemma GetLatestRates_run (f : Fixer) (baseCurrency symbols : string) :
  ∃ r, request_for x f fixerAPILatest r
       ∧ GetLatestRates x f baseCurrency symbols
         = ((rRates (fst (SendPayload x KRates r zeroRates)),
             reply_error (snd (SendPayload x KRates r zeroRates))
               (rSuccess (fst (SendPayload x KRates r zeroRates)))
               (rError (fst (SendPayload x KRates r zeroRates)))),
            [EvHTTP r]).
Proof.
  unfold GetLatestRates.
  match goal with |- context [SendOpenHTTPRequest x f ?e ?v ?k ?z] =>
    destruct (SendOpenHTTPRequest_sends f e v k z) as (r & -> & Hr) end.
  exists r. split; [done |]. unfold bind.
  destruct (SendPayload x KRates r zeroRates) as [resp [e |]]; cbn; [done |].
  by destruct (rSuccess resp).
Qed.

Lemma GetHistoricalRates_run (f : Fixer) (date baseCurrency : string)
    (symbols : list string) :
  ∃ r, request_for x f date r
       ∧ GetHistoricalRates x f date baseCurrency symbols
         = ((rRates (fst (SendPayload x KRates r zeroRates)),
             reply_error (snd (SendPayload x KRates r zeroRates))
               (rSuccess (fst (SendPayload x KRates r zeroRates)))
               (rError (fst (SendPayload x KRates r zeroRates)))),
            [EvHTTP r]).
Proof.
  unfold GetHistoricalRates.
  match goal with |- context [SendOpenHTTPRequest x f ?e ?v ?k ?z] =>
    destruct (SendOpenHTTPRequest_sends f e v k z) as (r & -> & Hr) end.
  exists r. split; [done |]. unfold bind.
  destruct (SendPayload x KRates r zeroRates) as [resp [e |]]; cbn; [done |].
  by destruct (rSuccess resp).
Qed.

Lemma ConvertCurrency_run (f : Fixer) (from to date : string) (amount : float64) :
  fixerAPIBasic ≤ APIKeyLvl f ->
  ∃ r, request_for x f fixerAPIConvert r
       ∧ ConvertCurrency x f from to date amount
         = ((cResult (fst (SendPayload x KConversion r zeroConversion)),
             reply_error (snd (SendPayload x KConversion r zeroConversion))
               (cSuccess (fst (SendPayload x KConversion r zeroConversion)))
               (cError (fst (SendPayload x KConversion r zeroConversion)))),
            [EvHTTP r]).
Proof.
  intros Hlvl. unfold ConvertCurrency. rewrite bool_decide_eq_false_2 by lia.
  match goal with |- context [SendOpenHTTPRequest x f ?e ?v ?k ?z] =>
    destruct (SendOpenHTTPRequest_sends f e v k z) as (r & -> & Hr) end.
  exists r. split; [done |]. unfold bind.
  destruct (SendPayload x KConversion r zeroConversion) as [resp [e |]]; cbn; [done |].
  by destruct (cSuccess resp).
Qed.

Lemma GetTimeSeriesData_run (f : Fixer) (startDate endDate baseCurrency : string)
    (symbols : list string) :
  fixerAPIProfessional ≤ APIKeyLvl f ->
  ∃ r, request_for x f fixerAPITimeSeries r
       ∧ GetTimeSeriesData x f startDate endDate baseCurrency symbols
         = ((tRates (fst (SendPayload x KTimeSeries r zeroTimeSeries)),
             reply_error (snd (SendPayload x KTimeSeries r zeroTimeSeries))
               (tSuccess (fst (SendPayload x KTimeSeries r zeroTimeSeries)))
               (tError (fst (SendPayload x KTimeSeries r zeroTimeSeries)))),
            [EvHTTP r]).
Proof.
  intros Hlvl. unfold GetTimeSeriesData. rewrite bool_decide_eq_false_2 by lia.
  match goal with |- context [SendOpenHTTPRequest x f ?e ?v ?k ?z] =>
    destruct (SendOpenHTTPRequest_sends f e v k z) as (r & -> & Hr) end.
  exists r. split; [done |]. unfold bind.
  destruct (SendPayload x KTimeSeries r zeroTimeSeries) as [resp [e |]]; cbn; [done |].
  by destruct (tSuccess resp).
Qed.

Lemma GetFluctuationData_run (f : Fixer) (startDate endDate baseCurrency : string)
    (symbols : list string) :
  fixerAPIProfessionalPlus ≤ APIKeyLvl f ->
  ∃ r, request_for x f fixerAPIFluctuation r
       ∧ GetFluctuationData x f startDate endDate baseCurrency symbols
         = ((fRates (fst (SendPayload x KFluctuation r zeroFluctuation)),
             reply_error (snd (SendPayload x KFluctuation r zeroFluctuation))
               (fSuccess (fst (SendPayload x KFluctuation r zeroFluctuation)))
               (fError (fst (SendPayload x KFluctuation r zeroFluctuation)))),
            [EvHTTP r]).
Proof.
  intros Hlvl. unfold GetFluctuationData. rewrite bool_decide_eq_false_2 by lia.
  match goal with |- context [SendOpenHTTPRequest x f ?e ?v ?k ?z] =>
    destruct (SendOpenHTTPRequest_sends f e v k z) as (r & -> & Hr) end.
  exists r. split; [done |]. unfold bind.
  destruct (SendPayload x KFluctuation r zeroFluctuation) as [resp [e |]]; cbn; [done |].
  by destruct (fSuccess resp).
Qed.

Lemma GetRates_events (f : Fixer) (baseCurrency symbols : string) :
  events (GetRates x f baseCurrency symbols)
  = events (GetLatestRates x f baseCurrency symbols)
  ∧ snd (value (GetRates x f baseCurrency symbols))
    = snd (value (GetLatestRates x f baseCurrency symbols)).
Proof.
  unfold GetRates, bind, events, value.
  destruct (GetLatestRates x f baseCurrency symbols) as [[rates [e |]] t]; cbn;
    by rewrite app_nil_r.
Qed.

(** X1: [GetLatestRates], [GetRates] and [GetHistoricalRates] have no
    tier gate: at every account level a call sends exactly one request,
    a GET through the provider's requester that carries its key as
    [access_key], to [latest] (to the date, for the historical rates),
    over the plain address without authentication on the free tier and
    over the SSL address with authentication on every other. *)
Theorem ungated_methods_send_one_request (f : Fixer) :
  (∀ baseCurrency symbols,
      ∃ r, events (GetLatestRates x f baseCurrency symbols) = [EvHTTP r]
           ∧ request_for x f fixerAPILatest r)
  ∧ (∀ baseCurrency symbols,
      ∃ r, events (GetRates x f baseCurrency symbols) = [EvHTTP r]
           ∧ request_for x f fixerAPILatest r)
  ∧ (∀ date baseCurrency symbols,
      ∃ r, events (GetHistoricalRates x f date baseCurrency symbols) = [EvHTTP r]
           ∧ request_for x f date r).
Proof.
  split; [| split].
  - intros b sy. destruct (GetLatestRates_run f b sy) as (r & Hr & ->). by exists r.
  - intros b sy. rewrite (proj1 (GetRates_events f b sy)).
    destruct (GetLatestRates_run f b sy) as (r & Hr & ->). by exists r.
  - intros d b sy. destruct (GetHistoricalRates_run f d b sy) as (r & Hr & ->).
    by exists r.
Qed.

(** X2: at or above the tier it needs, each gated method sends exactly
    one request, to its own endpoint. *)
Theorem gated_methods_send_one_request_at_tier (f : Fixer) :
  (fixerAPIBasic ≤ APIKeyLvl f ->
     ∀ from to date amount,
       ∃ r, events (ConvertCurrency x f from to date amount) = [EvHTTP r]
            ∧ request_for x f fixerAPIConvert r)
  ∧ (fixerAPIProfessional ≤ APIKeyLvl f ->
     ∀ startDate endDate baseCurrency symbols,
       ∃ r, events (GetTimeSeriesData x f startDate endDate baseCurrency symbols)
            = [EvHTTP r]
            ∧ request_for x f fixerAPITimeSeries r)
  ∧ (fixerAPIProfessionalPlus ≤ APIKeyLvl f ->
     ∀ startDate endDate baseCurrency symbols,
       ∃ r, events (GetFluctuationData x f startDate endDate baseCurrency symbols)
            = [EvHTTP r]
            ∧ request_for x f fixerAPIFluctuation r).
Proof.
  split; [| split]; intros Hlvl.
  - intros a b c d. destruct (ConvertCurrency_run f a b c d Hlvl) as (r & Hr & ->).
    by exists r.
  - intros a b c d. destruct (GetTimeSeriesData_run f a b c d Hlvl) as (r & Hr & ->).
    by exists r.
  - intros a b c d. destruct (GetFluctuationData_run f a b c d Hlvl) as (r & Hr & ->).
    by exists r.
Qed.

Lemma request_for_paid (f : Fixer) (endpoint : string) (r : Request) :
  APIKeyLvl f ≠ fixerAPIFree ->
  request_for x f endpoint r ->
  reqAuth r = true
  ∧ ∃ query, reqPath r = fixerAPISSL +:+ endpoint +:+ "?" +:+ query.
Proof.
  intros Hpaid (_ & _ & _ & v & _ & Hpath).
  rewrite bool_decide_eq_false_2 in Hpath by done. destruct Hpath as [-> ->]. eauto.
Qed.

(** X3: whatever the account level, a request sent by [ConvertCurrency],
    [GetTimeSeriesData] or [GetFluctuationData] is authenticated and goes
    to the SSL address: the gated methods never use the plain address. *)
Theorem gated_methods_never_use_plain_http (f : Fixer) (r : Request) :
  (∀ from to date amount,
      EvHTTP r ∈ events (ConvertCurrency x f from to date amount) ->
      reqAuth r = true
      ∧ ∃ query, reqPath r = fixerAPISSL +:+ fixerAPIConvert +:+ "?" +:+ query)
  ∧ (∀ startDate endDate baseCurrency symbols,
      EvHTTP r ∈ events (GetTimeSeriesData x f startDate endDate baseCurrency symbols) ->
      reqAuth r = true
      ∧ ∃ query, reqPath r = fixerAPISSL +:+ fixerAPITimeSeries +:+ "?" +:+ query)
  ∧ (∀ startDate endDate baseCurrency symbols,
      EvHTTP r ∈ events (GetFluctuationData x f startDate endDate baseCurrency symbols) ->
      reqAuth r = true
      ∧ ∃ query, reqPath r = fixerAPISSL +:+ fixerAPIFluctuation +:+ "?" +:+ query).
Proof.
  split; [| split]; intros a b c d Hin.
  - destruct (decide (APIKeyLvl f < fixerAPIBasic)) as [Hlow | Hok].
    + unfold ConvertCurrency in Hin. rewrite bool_decide_eq_true_2 in Hin by done.
      by apply elem_of_nil in Hin.
    + destruct (ConvertCurrency_run f a b c d) as (r' & Hr & Heq); [lia |].
      rewrite Heq in Hin. apply list_elem_of_singleton in Hin as [= ->].
      apply (request_for_paid f _ _); [unfold fixerAPIFree, fixerAPIBasic in *; lia | done].
  - destruct (decide (APIKeyLvl f < fixerAPIProfessional)) as [Hlow | Hok].
    + unfold GetTimeSeriesData in Hin. rewrite bool_decide_eq_true_2 in Hin by done.
      by apply elem_of_nil in Hin.
    + destruct (GetTimeSeriesData_run f a b c d) as (r' & Hr & Heq); [lia |].
      rewrite Heq in Hin. apply list_elem_of_singleton in Hin as [= ->].
      apply (request_for_paid f _ _);
        [unfold fixerAPIFree, fixerAPIProfessional in *; lia | done].
  - destruct (decide (APIKeyLvl f < fixerAPIProfessionalPlus)) as [Hlow | Hok].
    + unfold GetFluctuationData in Hin. rewrite bool_decide_eq_true_2 in Hin by done.
      by apply elem_of_nil in Hin.
    + destruct (GetFluctuationData_run f a b c d) as (r' & Hr & Heq); [lia |].
      rewrite Heq in Hin. apply list_elem_of_singleton in Hin as [= ->].
      apply (request_for_paid f _ _);
        [unfold fixerAPIFree, fixerAPIProfessionalPlus in *; lia | done].
Qed.

(** X4: on the free tier the base currency passed to [GetLatestRates] or
    to [GetRates] has no effect at all: the request sent, the rates and
    the error returned are the same for any two base currencies. *)
Theorem free_tier_ignores_base_currency (f : Fixer) (b1 b2 symbols : string) :
  APIKeyLvl f = fixerAPIFree ->
  GetLatestRates x f b1 symbols = GetLatestRates x f b2 symbols
  ∧ GetRates x f b1 symbols = GetRates x f b2 symbols.
Proof.
  intros Hfree.
  assert (Hl : GetLatestRates x f b1 symbols = GetLatestRates x f b2 symbols).
  { unfold GetLatestRates. rewrite Hfree. by rewrite bool_decide_eq_false_2 by done. }
  split; [done |]. unfold GetRates. rewrite Hl.
  by rewrite (bool_decide_eq_true_2 _ Hfree).
Qed.

(** X5: [GetRates] returns a nil map exactly when it returns an error, and
    the error and the request are those of [GetLatestRates]: the rates
    that [GetLatestRates] hands back beside an error are dropped. *)
Theorem GetRates_nil_exactly_on_error (f : Fixer) (baseCurrency symbols : string) :
  (fst (value (GetRates x f baseCurrency symbols)) = None
   ↔ is_Some (snd (value (GetRates x f baseCurrency symbols))))
  ∧ snd (value (GetRates x f baseCurrency symbols))
    = snd (value (GetLatestRates x f baseCurrency symbols))
  ∧ events (GetRates x f baseCurrency symbols)
    = events (GetLatestRates x f baseCurrency symbols).
Proof.
  destruct (GetRates_events f baseCurrency symbols) as [Hev Herr].
  split; [| by split].
  unfold GetRates, bind, value.
  destruct (GetLatestRates x f baseCurrency symbols) as [[rates [e |]] t]; cbn.
  - split; eauto.
  - split; [discriminate | intros [? [=]]].
Qed.

Lemma standardise_size (b : string) (rates : option (gmap string float64)) :
  size (standardise b rates) = size (default ∅ rates).
Proof.
  unfold standardise. generalize (default ∅ rates). intros m.
  apply (map_fold_weak_ind
           (fun acc m => size acc = size m
                         ∧ ∀ key, is_Some (acc !! key) ->
                                  ∃ sym, key = b +:+ sym ∧ is_Some (m !! sym))).
  - split; [by rewrite !map_size_empty |].
    intros key [v Hv]. by rewrite lookup_empty in Hv.
  - intros i a m' acc Hfresh [Hsize Hkeys].
    assert (Hnew : acc !! (b +:+ i) = None).
    { destruct (acc !! (b +:+ i)) eqn:Hacc; [| done].
      destruct (Hkeys (b +:+ i)) as (sym & Heq & [v Hv]); [by eauto |].
      apply (inj (String.app b)) in Heq. subst sym. congruence. }
    split.
    + by rewrite !map_size_insert_None, Hsize.
    + intros key. destruct (decide (key = b +:+ i)) as [-> | Hne].
      * intros _. exists i. by rewrite lookup_insert_eq.
      * rewrite lookup_insert_ne by congruence. intros Hk.
        destruct (Hkeys key Hk) as (sym & -> & Hs). exists sym. split; [done |].
        rewrite lookup_insert_ne; [done | congruence].
Qed.

(** X6: a call of [GetRates] that returns no error returns as many rates
    as the response held: prefixing the symbols makes no two keys
    collide, so no rate is lost. *)
Theorem GetRates_keeps_every_rate (f : Fixer) (baseCurrency symbols : string) :
  snd (value (GetRates x f baseCurrency symbols)) = None ->
  ∃ m, fst (value (GetRates x f baseCurrency symbols)) = Some m
       ∧ size m
         = size (default ∅ (fst (value (GetLatestRates x f baseCurrency symbols)))).
Proof.
  unfold GetRates, value, bind.
  destruct (GetLatestRates x f baseCurrency symbols) as [[rates [e |]] t]; cbn;
    [discriminate |].
  intros _. eexists. split; [reflexivity |]. apply standardise_size.
Qed.

Lemma made_of_reply {A : Type} (payload : A) (t : option error) (ok : bool)
    (e : RespError) :
  made_of (payload, reply_error t ok e) payload t ok.
Proof.
  unfold made_of. cbn. split; [done |]. split; [apply reply_error_none |].
  by intros e' ->.
Qed.

(** X7: for each method that reached the network, the result is made of
    the requester's reply to the one request sent: the rates (or the
    conversion result) of the response are returned as they are, also
    beside an error; the error is nil exactly when the transport
    returned none and the response has its success flag set; an error of
    the transport is returned untouched. *)
Theorem results_made_of_the_reply (f : Fixer) (r : Request) :
  (∀ baseCurrency symbols,
      events (GetLatestRates x f baseCurrency symbols) = [EvHTTP r] ->
      made_of (value (GetLatestRates x f baseCurrency symbols))
        (rRates (fst (SendPayload x KRates r zeroRates)))
        (snd (SendPayload x KRates r zeroRates))
        (rSuccess (fst (SendPayload x KRates r zeroRates))))
  ∧ (∀ date baseCurrency symbols,
      events (GetHistoricalRates x f date baseCurrency symbols) = [EvHTTP r] ->
      made_of (value (GetHistoricalRates x f date baseCurrency symbols))
        (rRates (fst (SendPayload x KRates r zeroRates)))
        (snd (SendPayload x KRates r zeroRates))
        (rSuccess (fst (SendPayload x KRates r zeroRates))))
  ∧ (∀ from to date amount,
      events (ConvertCurrency x f from to date amount) = [EvHTTP r] ->
      made_of (value (ConvertCurrency x f from to date amount))
        (cResult (fst (SendPayload x KConversion r zeroConversion)))
        (snd (SendPayload x KConversion r zeroConversion))
        (cSuccess (fst (SendPayload x KConversion r zeroConversion))))
  ∧ (∀ startDate endDate baseCurrency symbols,
      events (GetTimeSeriesData x f startDate endDate baseCurrency symbols) = [EvHTTP r] ->
      made_of (value (GetTimeSeriesData x f startDate endDate baseCurrency symbols))
        (tRates (fst (SendPayload x KTimeSeries r zeroTimeSeries)))
        (snd (SendPayload x KTimeSeries r zeroTimeSeries))
        (tSuccess (fst (SendPayload x KTimeSeries r zeroTimeSeries))))
  ∧ (∀ startDate endDate baseCurrency symbols,
      events (GetFluctuationData x f startDate endDate baseCurrency symbols) = [EvHTTP r] ->
      made_of (value (GetFluctuationData x f startDate endDate baseCurrency symbols))
        (fRates (fst (SendPayload x KFluctuation r zeroFluctuation)))
        (snd (SendPayload x KFluctuation r zeroFluctuation))
        (fSuccess (fst (SendPayload x KFluctuation r zeroFluctuation)))).
Proof.
  repeat split_and.
  - intros b sy. destruct (GetLatestRates_run f b sy) as (r' & _ & ->).
    intros [= ->]. apply made_of_reply.
  - intros d b sy. destruct (GetHistoricalRates_run f d b sy) as (r' & _ & ->).
    intros [= ->]. apply made_of_reply.
  - intros a b c d.
    destruct (decide (APIKeyLvl f < fixerAPIBasic)) as [Hlow | Hok].
    + unfold ConvertCurrency. by rewrite bool_decide_eq_true_2 by done.
    + destruct (ConvertCurrency_run f a b c d) as (r' & _ & ->); [lia |].
      intros [= ->]. apply made_of_reply.
  - intros a b c d.
    destruct (decide (APIKeyLvl f < fixerAPIProfessional)) as [Hlow | Hok].
    + unfold GetTimeSeriesData. by rewrite bool_decide_eq_true_2 by done.
    + destruct (GetTimeSeriesData_run f a b c d) as (r' & _ & ->); [lia |].
      intros [= ->]. apply made_of_reply.
  - intros a b c d.
    destruct (decide (APIKeyLvl f < fixerAPIProfessionalPlus)) as [Hlow | Hok].
    + unfold GetFluctuationData. by rewrite bool_decide_eq_true_2 by done.
    + destruct (GetFluctuationData_run f a b c d) as (r' & _ & ->); [lia |].
      intros [= ->]. apply made_of_reply.
Qed.

(** X8: [GetSupportedCurrencies] never returns.  It passes nil for the
    values, and [SendOpenHTTPRequest] starts by setting [access_key] in
    them: the call panics before any request is sent, whatever the
    provider and whatever the server would have answered. *)
Theorem GetSupportedCurrencies_always_panics
    (send : Request -> Symbols -> Symbols * option error) (f : Fixer) :
  ∃ reason, GetSupportedCurrencies x send f = (Panicked reason, []).
Proof. eexists. reflexivity. Qed.

(** X9: what [Setup] accepts decides what [ConvertCurrency] does next.
    After a [Setup] that returned no error, level 0 makes the conversion
    fail without a request; every other accepted level makes it send one
    authenticated request on the SSL address, through the requester
    [Setup] made (named after the settings, both rate limits ten seconds
    and zero, the default timeout), verbose as the settings say, with the
    key of the settings as [access_key]. *)
Theorem Setup_decides_conversion (f : Fixer) (config : Settings)
    (from to date : string) (amount : float64) :
  snd (value (Setup x f config)) = None ->
  (sAPIKeyLvl config = fixerAPIFree ->
     is_Some (snd (value (ConvertCurrency x (fst (value (Setup x f config)))
                            from to date amount)))
     ∧ events (ConvertCurrency x (fst (value (Setup x f config)))
                 from to date amount) = [])
  ∧ (sAPIKeyLvl config ≠ fixerAPIFree ->
     ∃ r v,
       events (ConvertCurrency x (fst (value (Setup x f config)))
                 from to date amount) = [EvHTTP r]
       ∧ reqVia r = Some (requestNew (sName config)
                            (NewRateLimit 10000000000 0)
                            (NewRateLimit 10000000000 0)
                            (NewHTTPClientWithTimeout (DefaultTimeOut x)))
       ∧ reqVerbose r = sVerbose config
       ∧ reqAuth r = true
       ∧ v !! "access_key" = Some [sAPIKey config]
       ∧ reqPath r = fixerAPISSL +:+ fixerAPIConvert +:+ "?" +:+ Encode x v).
Proof.
  intros Hok.
  destruct (decide (sAPIKeyLvl config < 0 ∨ sAPIKeyLvl config > 4)) as [Hbad | Hin].
  { by rewrite (Setup_rejected x f config Hbad) in Hok. }
  clear Hok. unfold Setup. rewrite bool_decide_eq_false_2 by done.
  cbn [value ret fst]. set (f' := mkFixer _ _ _ _ _ _ _ _).
  split.
  - intros Hfree. unfold ConvertCurrency.
    rewrite bool_decide_eq_true_2 by (subst f'; cbn; rewrite Hfree; done).
    split; [by eexists | done].
  - intros Hpaid.
    destruct (ConvertCurrency_run f' from to date amount)
      as (r & (Hvia & _ & Hverb & v & Hkey & Hpath) & Heq).
    { subst f'; cbn. unfold fixerAPIBasic, fixerAPIFree in *. lia. }
    rewrite bool_decide_eq_false_2 in Hpath by (subst f'; done).
    destruct Hpath as [Hpath Hauth].
    exists r, v. rewrite Heq. by repeat split.
Qed.

End FixerMore.

Section FixerMoreExamples.
Import Fixer.

Lemma gated_methods_send_one_request_at_tier_witness :
  ∃ r, events (GetFluctuationData Samples.extern Samples.enterprise_tier
                 "2019-01-01" "2019-01-31" "USD" ["GBP"; "JPY"]) = [EvHTTP r]
       ∧ request_for Samples.extern Samples.enterprise_tier fixerAPIFluctuation r.
Proof.
  apply (proj2 (proj2 (gated_methods_send_one_request_at_tier
                         Samples.extern Samples.enterprise_tier))).
  by vm_compute.
Defined.

Example enterprise_request_is :
  events (GetFluctuationData Samples.extern Samples.enterprise_tier
            "2019-01-01" "2019-01-31" "USD" ["GBP"; "JPY"])
  = [EvHTTP (mkRequest None "GET" "https://data.fixer.io/api/fluctuation?" true true)].
Proof. reflexivity. Qed.

Lemma gated_methods_never_use_plain_http_witness :
  reqAuth (mkRequest None "GET" "https://data.fixer.io/api/convert?" true false) = true
  ∧ ∃ query, reqPath (mkRequest None "GET" "https://data.fixer.io/api/convert?" true false)
             = fixerAPISSL +:+ fixerAPIConvert +:+ "?" +:+ query.
Proof.
  apply (proj1 (gated_methods_never_use_plain_http Samples.extern Samples.basic_tier
                  (mkRequest None "GET" "https://data.fixer.io/api/convert?" true false))
           "USD" "GBP" "" 5).
  apply list_elem_of_singleton. reflexivity.
Defined.

Lemma free_tier_ignores_base_currency_witness :
  GetLatestRates Samples.extern Samples.free_tier "USD" "GBP"
  = GetLatestRates Samples.extern Samples.free_tier "JPY" "GBP"
  ∧ GetRates Samples.extern Samples.free_tier "USD" "GBP"
    = GetRates Samples.extern Samples.free_tier "JPY" "GBP".
Proof.
  apply (free_tier_ignores_base_currency Samples.extern Samples.free_tier "USD" "JPY" "GBP").
  reflexivity.
Defined.

(** Above the free tier the base currency does reach the result. *)
Example basic_tier_uses_base_currency :
  ∃ m, fst (value (GetRates Samples.extern Samples.basic_tier "USD" "GBP")) = Some m
       ∧ m !! "USDGBP" = Some 2 ∧ m !! "EURGBP" = None.
Proof. eexists. split; [reflexivity |]. by vm_compute. Qed.

Lemma GetRates_keeps_every_rate_witness :
  ∃ m, fst (value (GetRates Samples.extern Samples.free_tier "USD" "USD,GBP")) = Some m
       ∧ size m
         = size (default ∅ (fst (value (GetLatestRates Samples.extern Samples.free_tier
                                          "USD" "USD,GBP")))).
Proof.
  apply (GetRates_keeps_every_rate Samples.extern Samples.free_tier "USD" "USD,GBP").
  reflexivity.
Defined.

Lemma results_made_of_the_reply_witness :
  made_of (value (GetLatestRates Samples.extern Samples.free_tier "USD" "GBP"))
    (Some Samples.two_rates) None true.
Proof.
  apply (proj1 (results_made_of_the_reply Samples.extern Samples.free_tier
                  (mkRequest None "GET" "http://data.fixer.io/api/latest?" false false))
           "USD" "GBP").
  reflexivity.
Defined.

Lemma Setup_decides_conversion_witness :
  (is_Some (snd (value (ConvertCurrency Samples.extern
                          (fst (value (Setup Samples.extern Samples.blank
                                         (Samples.settings 0))))
                          "USD" "GBP" "" 5)))
   ∧ events (ConvertCurrency Samples.extern
               (fst (value (Setup Samples.extern Samples.blank (Samples.settings 0))))
               "USD" "GBP" "" 5) = [])
  ∧ ∃ r v,
      events (ConvertCurrency Samples.extern
                (fst (value (Setup Samples.extern Samples.blank (Samples.settings 3))))
                "USD" "GBP" "" 5) = [EvHTTP r]
      ∧ reqVia r = Some (requestNew "Fixer"
                           (NewRateLimit 10000000000 0)
                           (NewRateLimit 10000000000 0)
                           (NewHTTPClientWithTimeout 15000000000))
      ∧ reqVerbose r = false
      ∧ reqAuth r = true
      ∧ v !! "access_key" = Some ["key"]
      ∧ reqPath r = fixerAPISSL +:+ fixerAPIConvert +:+ "?" +:+ Encode Samples.extern v.
Proof.
  split.
  - apply (proj1 (Setup_decides_conversion Samples.extern Samples.blank
                    (Samples.settings 0) "USD" "GBP" "" 5 eq_refl)).
    reflexivity.
  - apply (proj2 (Setup_decides_conversion Samples.extern Samples.blank
                    (Samples.settings 3) "USD" "GBP" "" 5 eq_refl)).
    discriminate.
Defined.

End FixerMoreExamples.

(** * More on the migration tool *)

Section DbmigrateMore.
Import Dbmigrate.

Ltac main_path w fl :=
  destruct (main_paths w fl)
    as [(?conf & ?e & ?Hl)
       | [(?conf & ?Hl & ?Hen)
       | [(?conf & ?conn & ?e & ?t & ?Hl & ?Hen & ?Ho)
       | [(?conf & ?pkg & ?Hl & ?Hen & ?Ho)
       | (?conf & ?db & ?pkg & ?Hl & ?Hen & ?Ho)]]]].

Ltac see_trace := unfold output, trace, banner, connected_line; cbn.

Ltac absent :=
  let Hx := fresh "Hx" in
  intros Hx; repeat destruct Hx as [Hx | Hx]; done.

(** X10: [openDbConnection] calls at most one driver, the PostgreSQL one
    when the driver name is the PostgreSQL name, the SQLite one when it
    is one of the two SQLite names and not the PostgreSQL name.  It
    returns no error only when that one call returned none, and then the
    connection is the one the driver returned.  With any other name it
    calls nothing, leaves the connection as it was and returns an
    error. *)
Theorem openDbConnection_one_driver (w : World) (old : option Db) (driver : string) :
  ∃ conn err,
    fst (openDbConnection w old driver) = Next (conn, err)
    ∧ (driver = DBPostgreSQL w ->
         trace (openDbConnection w old driver)
         = [CallConnect dbPSQL (snd (Connect w dbPSQL))])
    ∧ (driver ≠ DBPostgreSQL w -> driver = DBSQLite w ∨ driver = DBSQLite3 w ->
         trace (openDbConnection w old driver)
         = [CallConnect dbsqlite3 (snd (Connect w dbsqlite3))])
    ∧ (driver ≠ DBPostgreSQL w -> driver ≠ DBSQLite w -> driver ≠ DBSQLite3 w ->
         trace (openDbConnection w old driver) = []
         ∧ conn = old ∧ err = Some "no connection established")
    ∧ (err = None ->
         ∃ pkg, trace (openDbConnection w old driver) = [CallConnect pkg None]
                ∧ Connect w pkg = (conn, None)).
Proof.
  unfold openDbConnection.
  case_bool_decide as Hpg; [| case_bool_decide as Hlite].
  - destruct (Connect w dbPSQL) as [conn [e |]] eqn:Hc; cbn;
      eexists _, _; (split; [reflexivity |]);
      (split; [done |]); (split; [done |]); (split; [done |]).
    + discriminate.
    + intros _. by exists dbPSQL.
  - destruct (Connect w dbsqlite3) as [conn [e |]] eqn:Hc; cbn;
      eexists _, _; (split; [reflexivity |]);
      (split; [done |]); (split; [done |]);
      (split; [intros _ H2 H3; destruct Hlite; done |]).
    + discriminate.
    + intros _. by exists dbsqlite3.
  - eexists _, _. split; [reflexivity |].
    split; [done |]. split; [done |]. split; [done |]. discriminate.
Qed.


(** X12: [goose.Run] is called only after startup has gone through.  A
    call in the trace comes after a configuration load that returned no
    error and after a driver call that returned no error; the
    configuration enables the database; the handle passed is the one
    that driver returned, the dialect is the one the repository reports,
    the directory is the migration directory flag, and the error noted
    is what the library returned for these arguments. *)
Theorem goose_called_only_after_startup (w : World) (fl : Flags)
    (c : string) (h : SQLHandle) (drv dir a : string) (err : option error) :
  CallGooseRun c h drv dir a err ∈ trace (main w fl) ->
  ∃ conf pkg pre post,
    trace (main w fl) = pre ++ CallGooseRun c h drv dir a err :: post
    ∧ CallLoadConfig (configFile fl) None ∈ pre
    ∧ CallConnect pkg None ∈ pre
    ∧ LoadConfig w (configFile fl) true = (conf, None)
    ∧ Enabled (Database conf) = true
    ∧ Connect w pkg = (Some (mkDb h), None)
    ∧ drv = GetSQLDialect w
    ∧ dir = migrationDir fl
    ∧ err = gooseRun w c h drv dir a.
Proof.
  main_path w fl.
  - rewrite (main_config_error w fl conf e) by done. see_trace.
    rewrite !elem_of_cons, elem_of_nil. absent.
  - rewrite (main_disabled w fl conf) by done. see_trace.
    rewrite !elem_of_cons, elem_of_nil. absent.
  - rewrite (main_connect_error w fl conf conn e t) by done.
    destruct (openDbConnection_cases w None (Driver (Database conf)))
      as [(pkg & c' & Hc' & _) | [(pkg & c' & e' & Hc' & _) | Hc']];
      rewrite Hc' in *; simplify_eq; see_trace;
      rewrite !elem_of_cons, elem_of_nil; absent.
  - rewrite (main_nil_handle w fl conf [CallConnect pkg None]) by done. see_trace.
    case_bool_decide; rewrite !elem_of_cons, elem_of_nil;
      absent.
  - assert (Hconn : Connect w pkg = (Some db, None)).
    { destruct (openDbConnection_cases w None (Driver (Database conf)))
        as [(pkg' & c' & Hc' & Hconn) | [(pkg' & c' & e' & Hc' & _) | Hc']];
        rewrite Hc' in *; by simplify_eq. }
    destruct db as [h']. cbn [SQL] in *.
    destruct (decide (command fl = "")) as [Hc | Hc].
    + rewrite (main_default_status w fl conf (mkDb h') [CallConnect pkg None]) by done.
      cbn [SQL]. intros Hin. exists conf, pkg.
      exists (banner w ++ [CallLoadConfig (configFile fl) None; CallConnect pkg None;
                           connected_line w conf]), [Println ""; Usage].
      assert (Hev : CallGooseRun c h drv dir a err
                    = CallGooseRun "status" h' (GetSQLDialect w) (migrationDir fl) ""
                        (gooseRun w "status" h' (GetSQLDialect w) (migrationDir fl) "")).
      { revert Hin. see_trace.
        case_bool_decide; rewrite !elem_of_cons, elem_of_nil;
          absent. }
      injection Hev as -> -> -> -> -> ->.
      split; [by rewrite <- !app_assoc |].
      split; [apply elem_of_app; right; by left |].
      split; [apply elem_of_app; right; right; by left |]. done.
    + rewrite (main_delegates w fl conf (mkDb h') [CallConnect pkg None]) by done.
      cbn [SQL]. intros Hin. exists conf, pkg.
      exists (banner w ++ [CallLoadConfig (configFile fl) None; CallConnect pkg None;
                           connected_line w conf]),
             (match gooseRun w (command fl) h' (GetSQLDialect w) (migrationDir fl) (args fl)
              with Some e => [Println e] | None => [] end).
      assert (Hev : CallGooseRun c h drv dir a err
                    = CallGooseRun (command fl) h' (GetSQLDialect w) (migrationDir fl)
                        (args fl)
                        (gooseRun w (command fl) h' (GetSQLDialect w) (migrationDir fl)
                           (args fl))).
      { revert Hin. see_trace.
        destruct (gooseRun w _ _ _ _ _); case_bool_decide;
          rewrite !elem_of_cons, elem_of_nil;
          absent. }
      injection Hev as -> -> -> -> -> ->.
      split; [by rewrite <- !app_assoc |].
      split; [apply elem_of_app; right; by left |].
      split; [apply elem_of_app; right; right; by left |]. done.
Qed.

(** X13: two flags that do not matter.  The data directory flag is never
    read: the run is the same whatever it holds.  With an empty command
    the args flag is not read either: the default [status] run is given
    empty args. *)
Theorem unread_flags_change_nothing (w : World) (fl : Flags) (d a : string) :
  main w (with_datadir d fl) = main w fl
  ∧ (command fl = "" -> main w (with_args a fl) = main w fl).
Proof.
  split; [reflexivity |].
  intros Hc. unfold main. cbn [with_args configFile migrationDir command args].
  rewrite Hc. by rewrite (bool_decide_eq_true_2 ("" = "")).
Qed.



End DbmigrateMore.

Section DbmigrateMoreExamples.
Import Dbmigrate.

Lemma openDbConnection_one_driver_witness :
  trace (openDbConnection (Samples.pg_world Samples.never_fails) (Some Samples.pg_db) "mysql")
  = []
  ∧ fst (openDbConnection (Samples.pg_world Samples.never_fails) (Some Samples.pg_db) "mysql")
    = Next (Some Samples.pg_db, Some "no connection established").
Proof.
  destruct (openDbConnection_one_driver (Samples.pg_world Samples.never_fails)
              (Some Samples.pg_db) "mysql")
    as (conn & err & Hret & _ & _ & Hnone & _).
  destruct Hnone as (Ht & -> & ->); [discriminate | discriminate | discriminate |].
  by split.
Defined.

Lemma goose_called_only_after_startup_witness :
  ∃ conf pkg pre post,
    trace (main (Samples.pg_world Samples.always_fails) (Samples.flags "up"))
    = pre ++ CallGooseRun "up" (sqlDB 1) "postgres" "migrations" ""
               (Some "migration failed") :: post
    ∧ CallLoadConfig "config.json" None ∈ pre
    ∧ CallConnect pkg None ∈ pre
    ∧ LoadConfig (Samples.pg_world Samples.always_fails) "config.json" true = (conf, None)
    ∧ Enabled (Database conf) = true
    ∧ Connect (Samples.pg_world Samples.always_fails) pkg = (Some (mkDb (sqlDB 1)), None)
    ∧ "postgres" = GetSQLDialect (Samples.pg_world Samples.always_fails)
    ∧ "migrations" = migrationDir (Samples.flags "up")
    ∧ Some "migration failed"
      = gooseRun (Samples.pg_world Samples.always_fails) "up" (sqlDB 1) "postgres"
          "migrations" "".
Proof.
  apply (goose_called_only_after_startup
           (Samples.pg_world Samples.always_fails) (Samples.flags "up")).
  change (trace (main (Samples.pg_world Samples.always_fails) (Samples.flags "up")))
    with [Println "GoCryptoTrader database migration tool";
          Println "(c) GoCryptoTrader";
          Println "";
          CallLoadConfig "config.json" None;
          CallConnect dbPSQL None;
          Println "Connected to: localhost";
          CallGooseRun "up" (sqlDB 1) "postgres" "migrations" "" (Some "migration failed");
          Println "migration failed"].
  do 6 apply list_elem_of_further. apply list_elem_of_here.
Defined.

Lemma unread_flags_change_nothing_witness :
  main (Samples.pg_world Samples.always_fails) (with_args "20190101" (Samples.flags ""))
  = main (Samples.pg_world Samples.always_fails) (Samples.flags "").
Proof.
  apply (proj2 (unread_flags_change_nothing (Samples.pg_world Samples.always_fails)
                  (Samples.flags "") "/elsewhere" "20190101")).
  reflexivity.
Defined.

(** The driver that returns neither a handle nor an error: the run
    panics after the connection line and before [goose.Run]. *)
Example nil_handle_run :
  main Samples.handleless_world (Samples.flags "up")
  = (Panic,
     [Println "GoCryptoTrader database migration tool";
      Println "(c) GoCryptoTrader";
      Println "";
      CallLoadConfig "config.json" None;
      CallConnect dbsqlite3 None;
      Println "Database file: gct.db"]).
Proof. reflexivity. Qed.

End DbmigrateMoreExamples.
